(** * Workers AI chat: the Worker router and the ChatRoom durable object

    A shallow embedding of [src/index.ts]: the cookie helpers, the Worker's
    [fetch] handler and [ChatRoom.fetch], followed by the properties of the
    specification that are settled against them.

    JavaScript strings are sequences of UTF-16 code units; they are modelled
    as [list N].  Values that arrive as parsed JSON are modelled by
    [JSValue].  Handlers run in a small state monad that carries durable
    storage together with a log of the calls made to storage and to the
    inference binding. *)

From Stdlib Require Import ZArith NArith List Ascii String DecimalString QArith Lia.
From stdpp Require Import base list gmap strings.

Set Warnings "-register-all".
Open Scope N_scope.

(** ** Strings *)

Abbreviation jsstring := (list N).

(** A literal of the source, as code units. *)
Definition js (s : string) : jsstring :=
  map (fun a => N_of_ascii a) (list_ascii_of_string s).
Arguments js : simpl never.

(** ECMAScript [WhiteSpace] and [LineTerminator] code units, the ones
    [String.prototype.trim] strips. *)
Definition is_white_space (c : N) : bool :=
  (9 <=? c) && (c <=? 13)
  || (c =? 32) || (c =? 160) || (c =? 5760)
  || (8192 <=? c) && (c <=? 8202)
  || (c =? 8232) || (c =? 8233) || (c =? 8239) || (c =? 8287)
  || (c =? 12288) || (c =? 65279).

Fixpoint trimStart (s : jsstring) : jsstring :=
  match s with
  | [] => []
  | c :: t => if is_white_space c then trimStart t else s
  end.

Definition trimEnd (s : jsstring) : jsstring := reverse (trimStart (reverse s)).

Definition trim (s : jsstring) : jsstring := trimEnd (trimStart s).

(** JavaScript truthiness of a string: the empty string is falsy. *)
Definition truthy (s : jsstring) : bool :=
  match s with [] => false | _ :: _ => true end.

(** [a.includes(b)] *)
Fixpoint is_prefix_of (p s : jsstring) : bool :=
  match p, s with
  | [], _ => true
  | _ :: _, [] => false
  | a :: p', b :: s' => (a =? b) && is_prefix_of p' s'
  end.

Fixpoint includes (s sub : jsstring) : bool :=
  is_prefix_of sub s ||
  match s with
  | [] => false
  | _ :: t => includes t sub
  end.

(** [s.split(sep)] for a separator of one code unit: never empty. *)
Fixpoint split (sep : N) (s : jsstring) : list jsstring :=
  match s with
  | [] => [[]]
  | c :: t =>
      if c =? sep then [] :: split sep t
      else match split sep t with
           | [] => [[c]]
           | p :: ps => (c :: p) :: ps
           end
  end.

(** [parts.join(sep)] *)
Fixpoint join (sep : jsstring) (parts : list jsstring) : jsstring :=
  match parts with
  | [] => []
  | [p] => p
  | p :: ps => p ++ sep ++ join sep ps
  end.

(** ** Exceptions and results *)

Inductive Exn :=
| TypeError
| URIError
| RangeError
| Rejection (text : jsstring).

(** [String(err)]; the message text of a built-in error is engine-defined
    and is left out. *)
Definition String_of_exn (e : Exn) : jsstring :=
  match e with
  | TypeError => js "TypeError"
  | URIError => js "URIError"
  | RangeError => js "RangeError"
  | Rejection text => text
  end.

Inductive Outcome (A : Type) :=
| Returned (a : A)
| Threw (e : Exn).
Arguments Returned {A} a.
Arguments Threw {A} e.

(** ** JSON values *)

(** What [JSON.parse] produces.  [JNumber] carries an integral Number in the
    safe-integer range, the Numbers whose [toString] is plain decimal.  An
    object is its list of own properties; the first entry for a key is the
    property's value. *)
Inductive JSValue :=
| JNull
| JBool (b : bool)
| JNumber (n : Z)
| JString (s : jsstring)
| JArray (elems : list JSValue)
| JObject (props : list (jsstring * JSValue)).

Fixpoint own_property (props : list (jsstring * JSValue)) (key : jsstring)
  : option JSValue :=
  match props with
  | [] => None
  | (k, v) :: rest => if bool_decide (k = key) then Some v else own_property rest key
  end.

(** [v?.key] for a key that no built-in prototype defines ([message],
    [response], [reply]): only an object's own property can answer; [None]
    is [undefined]. *)
Definition get_field (v : JSValue) (key : jsstring) : option JSValue :=
  match v with
  | JObject props => own_property props key
  | _ => None
  end.

(** [x ?? e] where [e] is the empty string literal. *)
Definition or_empty_string (x : option JSValue) : JSValue :=
  match x with
  | None | Some JNull => JString []
  | Some v => v
  end.

Definition Number_toString (n : Z) : jsstring :=
  js (NilZero.string_of_int (Z.to_int n)).

(** [v.toString()].  Parsed JSON holds no functions, so an object that has
    an own [toString] property shadows [Object.prototype.toString] with a
    value that cannot be called: the call throws a TypeError.  Arrays join
    their elements with a comma, a [null] element giving the empty string. *)
Fixpoint toString (v : JSValue) : Outcome jsstring :=
  match v with
  | JNull => Threw TypeError
  | JBool b => Returned (js (if b then "true" else "false"))
  | JNumber n => Returned (Number_toString n)
  | JString s => Returned s
  | JArray elems =>
      (fix join_elems (l : list JSValue) : Outcome jsstring :=
         match l with
         | [] => Returned []
         | x :: rest =>
             match (match x with JNull => Returned [] | _ => toString x end) with
             | Threw e => Threw e
             | Returned sx =>
                 match rest with
                 | [] => Returned sx
                 | _ :: _ =>
                     match join_elems rest with
                     | Threw e => Threw e
                     | Returned sr => Returned (sx ++ js "," ++ sr)
                     end
                 end
             end
         end) elems
  | JObject props =>
      match own_property props (js "toString") with
      | Some _ => Threw TypeError
      | None => Returned (js "[object Object]")
      end
  end.

(** What [Array.prototype.join] turns one element into. *)
Definition element_toString (x : JSValue) : Outcome jsstring :=
  match x with JNull => Returned [] | _ => toString x end.

(** [(v?.key ?? e).toString()] and [(v?.key ?? e).toString().trim()] with
    [e] the empty string literal: the expression both handlers use to read
    [message] and the ChatRoom uses to read [response]. *)
Definition coerced_field (v : JSValue) (key : jsstring) : Outcome jsstring :=
  toString (or_empty_string (get_field v key)).

Definition trimmed_field (v : JSValue) (key : jsstring) : Outcome jsstring :=
  match coerced_field v key with
  | Threw e => Threw e
  | Returned s => Returned (trim s)
  end.

(** ** Constants of the source *)

Definition MODEL : jsstring := js "@cf/meta/llama-3.1-8b-instruct".
Definition SYSTEM_PROMPT : jsstring :=
  js "You are a concise, helpful assistant. Keep answers short and practical.".
Definition MAX_HISTORY : nat := 20.

(** ** Chat messages *)

Inductive Role := user | assistant | system.

#[global] Instance Role_eq_dec : EqDecision Role.
Proof. solve_decision. Defined.

Record ChatMessage := { role : Role; content : jsstring }.

#[global] Instance ChatMessage_eq_dec : EqDecision ChatMessage.
Proof. solve_decision. Defined.

Abbreviation History := (list ChatMessage).

(** [while (history.length > MAX_HISTORY) history.shift();] *)
Fixpoint shift_excess (history : History) : History :=
  match history with
  | [] => []
  | _ :: rest =>
      if (MAX_HISTORY <? length history)%nat then shift_excess rest else history
  end.

(** ** Responses *)

(** The text of a Durable Object response as the Worker reads it: the
    serialisation of a JSON value, or text that [JSON.parse] rejects. *)
Inductive RawBody :=
| Serialized (v : JSValue)
| Unparsable (text : jsstring).

Inductive Body :=
| Json (v : JSValue)                          (* JSON.stringify(v) *)
| JsonErrorRaw (error : jsstring) (raw : RawBody)  (* { error, raw } *)
| PlainText (text : jsstring)
| HtmlPage.                                   (* htmlPage() *)

Record Response := {
  status : Z;
  content_type : option jsstring;
  set_cookie : option jsstring;
  body : Body
}.

(** [Response.json(v, { status })] *)
Definition Response_json (v : JSValue) (st : Z) : Response :=
  {| status := st;
     content_type := Some (js "application/json");
     set_cookie := None;
     body := Json v |}.

Definition error_body (msg : string) : JSValue :=
  JObject [(js "error", JString (js msg))].

Definition error_details_body (msg : string) (details : jsstring) : JSValue :=
  JObject [(js "error", JString (js msg)); (js "details", JString details)].

(** ** The ChatRoom durable object *)

Module ChatRoom.

(** The argument of [env.AI.run(MODEL, { messages, max_tokens, temperature })]. *)
Record AiInput := {
  ai_model : jsstring;
  ai_messages : list ChatMessage;
  ai_max_tokens : Z;
  ai_temperature : Q
}.

(** The inference binding: it resolves with a JSON value or rejects. *)
Definition AiBinding := AiInput -> Outcome JSValue.

Inductive Event :=
| StorageGet (key : jsstring)
| StoragePut (key : jsstring) (value : History)
| AiRun (input : AiInput).

(** [this.state]: durable storage, and the log of calls made so far
    (latest last). *)
Record State := {
  storage : gmap jsstring History;
  trace : list Event
}.

Record Request := {
  method : jsstring;
  json : option JSValue   (* [await request.json()]; [None] when it rejects *)
}.

(** An object that has stored nothing and made no call. *)
Definition fresh : State := {| storage := ∅; trace := [] |}.

(** Computations of a handler: state passing with exceptions. *)
Definition DO (A : Type) := State -> Outcome A * State.

Definition ret {A} (a : A) : DO A := fun s => (Returned a, s).
Definition bind {A B} (m : DO A) (k : A -> DO B) : DO B :=
  fun s => match m s with
           | (Returned a, s') => k a s'
           | (Threw e, s') => (Threw e, s')
           end.
Definition lift {A} (o : Outcome A) : DO A := fun s => (o, s).

Notation "x <- m ;; k" := (bind m (fun x => k))
  (at level 100, m at next level, right associativity).

Definition log (ev : Event) (s : State) : State :=
  {| storage := storage s; trace := trace s ++ [ev] |}.

(** [await this.state.storage.get(key)] *)
Definition storage_get (key : jsstring) : DO (option History) :=
  fun s => (Returned (storage s !! key), log (StorageGet key) s).

(** [await this.state.storage.put(key, value)] *)
Definition storage_put (key : jsstring) (value : History) : DO unit :=
  fun s => (Returned tt,
            log (StoragePut key value)
              {| storage := <[key := value]> (storage s); trace := trace s |}).

(** [await this.env.AI.run(MODEL, input)] *)
Definition ai_run (AI : AiBinding) (input : AiInput) : DO (Outcome JSValue) :=
  fun s => (Returned (AI input), log (AiRun input) s).

(** The reply of one request: either an early error response or the text
    to append. *)
Definition generate (AI : option AiBinding) (message : jsstring)
    (messages : list ChatMessage) : DO (Response + jsstring) :=
  match AI with
  | None => ret (inr (js "DEV MODE (no Workers AI). You said: " ++ message))
  | Some run =>
      r <- ai_run run {| ai_model := MODEL; ai_messages := messages;
                         ai_max_tokens := 256; ai_temperature := 6 # 10 |} ;;
      match r with
      | Threw err =>
          ret (inl (Response_json
                      (error_details_body "Workers AI call failed" (String_of_exn err))
                      502))
      | Returned aiResult =>
          reply <- lift (trimmed_field aiResult (js "response")) ;;
          if truthy reply then ret (inr reply)
          else ret (inl (Response_json
                           (JObject [(js "error", JString (js "Empty AI response"));
                                     (js "aiResult", aiResult)])
                           502))
      end
  end.

(** The body of the outer [try]. *)
Definition handle (AI : option AiBinding) (request : Request) : DO Response :=
  if negb (bool_decide (method request = js "POST")) then
    ret (Response_json (error_body "Method not allowed") 405)
  else
    match json request with
    | None => ret (Response_json (error_body "Invalid JSON") 400)
    | Some body =>
        message <- lift (trimmed_field body (js "message")) ;;
        if negb (truthy message) then
          ret (Response_json (error_body "Missing message") 400)
        else
          stored <- storage_get (js "history") ;;
          let history := default [] stored in
          let history := shift_excess (history ++ [{| role := user; content := message |}]) in
          let messages := {| role := system; content := SYSTEM_PROMPT |} :: history in
          g <- generate AI message messages ;;
          match g with
          | inl response => ret response
          | inr reply =>
              let history :=
                shift_excess (history ++ [{| role := assistant; content := reply |}]) in
              _ <- storage_put (js "history") history ;;
              ret (Response_json (JObject [(js "reply", JString reply)]) 200)
          end
    end.

(** [async fetch(request)]: the outer [catch] turns any exception into a
    500 response. *)
Definition fetch (AI : option AiBinding) (request : Request)
    (s : State) : Response * State :=
  match handle AI request s with
  | (Returned response, s') => (response, s')
  | (Threw err, s') =>
      (Response_json
         (error_details_body "Unhandled DO exception" (String_of_exn err)) 500,
       s')
  end.

End ChatRoom.

(** ** URI component coding

    [encodeURIComponent] and [decodeURIComponent] are built-ins; they are
    modelled after the [Encode] and [Decode] operations of ECMA-262. *)

(** [A-Z a-z 0-9 - _ . ! ~ * ' ( )] *)
Definition is_uri_unreserved (c : N) : bool :=
  (65 <=? c) && (c <=? 90) || (97 <=? c) && (c <=? 122) || (48 <=? c) && (c <=? 57)
  || (c =? 45) || (c =? 95) || (c =? 46) || (c =? 33) || (c =? 126)
  || (c =? 42) || (c =? 39) || (c =? 40) || (c =? 41).

Definition is_high_surrogate (c : N) : bool := (55296 <=? c) && (c <=? 56319).
Definition is_low_surrogate (c : N) : bool := (56320 <=? c) && (c <=? 57343).

(** A string without unpaired surrogates, over 16-bit code units. *)
Fixpoint well_formed (s : jsstring) : bool :=
  match s with
  | [] => true
  | c :: rest =>
      if is_high_surrogate c then
        match rest with
        | d :: rest' => is_low_surrogate d && well_formed rest'
        | [] => false
        end
      else (c <? 65536) && negb (is_low_surrogate c) && well_formed rest
  end.

Definition hex_digit (d : N) : N := if d <? 10 then 48 + d else 55 + d.

Definition hex_value (c : N) : option N :=
  if (48 <=? c) && (c <=? 57) then Some (c - 48)
  else if (65 <=? c) && (c <=? 70) then Some (c - 55)
  else if (97 <=? c) && (c <=? 102) then Some (c - 87)
  else None.

Definition percent_escape (octet : N) : jsstring :=
  [37; hex_digit (octet / 16); hex_digit (octet mod 16)].

Definition percent_escapes (octets : list N) : jsstring :=
  concat (map percent_escape octets).

Definition utf8_encode (cp : N) : list N :=
  if cp <? 128 then [cp]
  else if cp <? 2048 then [192 + cp / 64; 128 + cp mod 64]
  else if cp <? 65536 then
    [224 + cp / 4096; 128 + (cp / 64) mod 64; 128 + cp mod 64]
  else
    [240 + cp / 262144; 128 + (cp / 4096) mod 64; 128 + (cp / 64) mod 64;
     128 + cp mod 64].

Definition utf16_encode (cp : N) : jsstring :=
  if cp <? 65536 then [cp]
  else [55296 + (cp - 65536) / 1024; 56320 + (cp - 65536) mod 1024].

Definition code_point_of_pair (hi lo : N) : N :=
  65536 + (hi - 55296) * 1024 + (lo - 56320).

Definition prepend {A} (pre : list A) (o : Outcome (list A)) : Outcome (list A) :=
  match o with
  | Returned l => Returned (pre ++ l)
  | Threw e => Threw e
  end.

Fixpoint encodeURIComponent (s : jsstring) : Outcome jsstring :=
  match s with
  | [] => Returned []
  | c :: rest =>
      if is_uri_unreserved c then prepend [c] (encodeURIComponent rest)
      else if is_low_surrogate c then Threw URIError
      else if is_high_surrogate c then
        match rest with
        | d :: rest' =>
            if is_low_surrogate d then
              prepend (percent_escapes (utf8_encode (code_point_of_pair c d)))
                      (encodeURIComponent rest')
            else Threw URIError
        | [] => Threw URIError
        end
      else prepend (percent_escapes (utf8_encode c)) (encodeURIComponent rest)
  end.

Inductive UriToken :=
| Plain (c : N)
| Octet (b : N).

(** First pass of [Decode]: every [%] must be followed by two hex digits. *)
Fixpoint uri_tokens (s : jsstring) : Outcome (list UriToken) :=
  match s with
  | [] => Returned []
  | c :: rest =>
      if c =? 37 then
        match rest with
        | h :: l :: rest' =>
            match hex_value h, hex_value l with
            | Some a, Some b => prepend [Octet (16 * a + b)] (uri_tokens rest')
            | _, _ => Threw URIError
            end
        | _ => Threw URIError
        end
      else prepend [Plain c] (uri_tokens rest)
  end.

Definition is_continuation (b : N) : bool := (128 <=? b) && (b <=? 191).

(** The code point of a well-formed UTF-8 sequence of 2, 3 or 4 octets:
    no overlong form, no surrogate, nothing above U+10FFFF. *)
Definition utf8_decode2 (b0 b1 : N) : option N :=
  let cp := (b0 - 192) * 64 + (b1 - 128) in
  if is_continuation b1 && (128 <=? cp) then Some cp else None.

Definition utf8_decode3 (b0 b1 b2 : N) : option N :=
  let cp := (b0 - 224) * 4096 + (b1 - 128) * 64 + (b2 - 128) in
  if is_continuation b1 && is_continuation b2 && (2048 <=? cp)
     && negb ((55296 <=? cp) && (cp <=? 57343))
  then Some cp else None.

Definition utf8_decode4 (b0 b1 b2 b3 : N) : option N :=
  let cp := (b0 - 240) * 262144 + (b1 - 128) * 4096 + (b2 - 128) * 64 + (b3 - 128) in
  if is_continuation b1 && is_continuation b2 && is_continuation b3
     && (65536 <=? cp) && (cp <=? 1114111)
  then Some cp else None.

Definition decoded (cp : option N) (rest : Outcome jsstring) : Outcome jsstring :=
  match cp with
  | Some cp => prepend (utf16_encode cp) rest
  | None => Threw URIError
  end.

(** Second pass of [Decode]: an octet below 128 is a code unit; a lead octet
    announces 2, 3 or 4 octets, which must all be escapes and form one
    well-formed UTF-8 sequence. *)
Fixpoint utf16_of_tokens (ts : list UriToken) : Outcome jsstring :=
  match ts with
  | [] => Returned []
  | Plain c :: rest => prepend [c] (utf16_of_tokens rest)
  | Octet b0 :: rest =>
      if b0 <? 128 then prepend [b0] (utf16_of_tokens rest)
      else if b0 <? 192 then Threw URIError
      else if b0 <? 224 then
        match rest with
        | Octet b1 :: rest' => decoded (utf8_decode2 b0 b1) (utf16_of_tokens rest')
        | _ => Threw URIError
        end
      else if b0 <? 240 then
        match rest with
        | Octet b1 :: Octet b2 :: rest' =>
            decoded (utf8_decode3 b0 b1 b2) (utf16_of_tokens rest')
        | _ => Threw URIError
        end
      else if b0 <? 248 then
        match rest with
        | Octet b1 :: Octet b2 :: Octet b3 :: rest' =>
            decoded (utf8_decode4 b0 b1 b2 b3) (utf16_of_tokens rest')
        | _ => Threw URIError
        end
      else Threw URIError
  end.

Definition decodeURIComponent (s : jsstring) : Outcome jsstring :=
  match uri_tokens s with
  | Returned ts => utf16_of_tokens ts
  | Threw e => Threw e
  end.

(** ** The Worker *)

Module Worker.

Record Request := {
  method : jsstring;
  protocol : jsstring;            (* new URL(request.url).protocol *)
  pathname : jsstring;            (* new URL(request.url).pathname *)
  cookie_header : option jsstring; (* request.headers.get("Cookie") *)
  json : option JSValue           (* [await request.json()]; [None] when it rejects *)
}.

(** The loop of [getCookie] over the parts of the header. *)
Fixpoint find_cookie (parts : list jsstring) (name : jsstring)
  : Outcome (option jsstring) :=
  match parts with
  | [] => Returned None
  | part :: rest =>
      match split 61 (trim part) with
      | k :: v =>
          if bool_decide (k = name) then
            match decodeURIComponent (join (js "=") v) with
            | Returned value => Returned (Some value)
            | Threw e => Threw e
            end
          else find_cookie rest name
      | [] => find_cookie rest name
      end
  end.

Definition getCookie (req : Request) (name : jsstring)
  : Outcome (option jsstring) :=
  match cookie_header req with
  | None => Returned None
  | Some cookie =>
      if truthy cookie then find_cookie (split 59 cookie) name
      else Returned None
  end.

Definition makeSessionCookie (sessionId : jsstring) (secure : bool)
  : Outcome jsstring :=
  match encodeURIComponent sessionId with
  | Threw e => Threw e
  | Returned encoded =>
      Returned (js "session=" ++ encoded
                ++ js "; Path=/; HttpOnly; SameSite=Lax; Max-Age=2592000"
                ++ (if secure then js "; Secure" else []))
  end.

(** What [crypto.randomUUID()] and [new Date().toISOString()] give during
    one request. *)
Record Platform := {
  randomUUID : jsstring;
  now_iso : jsstring
}.

(** The response of a Durable Object stub, as the Worker reads it. *)
Record StubResponse := {
  stub_status : Z;
  stub_content_type : option jsstring;
  stub_raw : RawBody
}.

Definition stub_ok (r : StubResponse) : bool :=
  ((200 <=? stub_status r) && (stub_status r <=? 299))%Z.

Section Handler.

(** The state behind the namespace binding. *)
Context {W : Type}.

(** [env.CHATROOMS.get(env.CHATROOMS.idFromName(name)).fetch(...)]: the
    call may fail to dispatch. *)
Record DurableObjectNamespace := {
  stub_fetch : jsstring -> ChatRoom.Request -> W -> Outcome StubResponse * W
}.

Record Env := {
  AI : option ChatRoom.AiBinding;
  CHATROOMS : DurableObjectNamespace
}.

(** The state of the namespace and the stub calls made so far. *)
Record State := {
  objects : W;
  dispatched : list (jsstring * ChatRoom.Request)
}.

Definition Handler (A : Type) := State -> Outcome A * State.

Definition ret {A} (a : A) : Handler A := fun s => (Returned a, s).
Definition bind {A B} (m : Handler A) (k : A -> Handler B) : Handler B :=
  fun s => match m s with
           | (Returned a, s') => k a s'
           | (Threw e, s') => (Threw e, s')
           end.
Definition lift {A} (o : Outcome A) : Handler A := fun s => (o, s).

Notation "x <- m ;; k" := (bind m (fun x => k))
  (at level 100, m at next level, right associativity).

(** [await stub.fetch("https://do/chat", init)] inside its [try]. *)
Definition call_stub (ns : DurableObjectNamespace) (name : jsstring)
    (request : ChatRoom.Request) : Handler (Outcome StubResponse) :=
  fun s =>
    let (r, w) := stub_fetch ns name request (objects s) in
    (Returned r,
     {| objects := w; dispatched := dispatched s ++ [(name, request)] |}).

(** The constructor checks of [Response.json(v, { status })]: the status
    must lie in 200..599 and must not be a null-body status. *)
Definition Response_json_init (v : JSValue) (st : Z) : Outcome Response :=
  if negb ((200 <=? st) && (st <=? 599))%Z then Threw RangeError
  else if ((st =? 204) || (st =? 205) || (st =? 304))%Z then Threw TypeError
  else Returned (Response_json v st).

(** The own enumerable properties that [...v] copies. *)
Definition spread (v : JSValue) : list (jsstring * JSValue) :=
  match v with
  | JObject props => props
  | JArray elems =>
      imap (fun i x => (Number_toString (Z.of_nat i), x)) elems
  | JString s =>
      imap (fun i c => (Number_toString (Z.of_nat i), JString [c])) s
  | _ => []
  end.

(** [parsed.reply]: reading a property of [null] throws. *)
Definition reply_of (parsed : JSValue) : Outcome (option JSValue) :=
  match parsed with
  | JNull => Threw TypeError
  | _ => Returned (get_field parsed (js "reply"))
  end.

(** [POST /api/chat] *)
Definition api_chat (platform : Platform) (env : Env) (request : Request)
  : Handler Response :=
  cookie <- lift (getCookie request (js "session")) ;;
  let secure := bool_decide (protocol request = js "https:") in
  session <-
    (match cookie with
     | Some sessionId =>
         if truthy sessionId then ret (sessionId, None)
         else c <- lift (makeSessionCookie (randomUUID platform) secure) ;;
              ret (randomUUID platform, Some c)
     | None =>
         c <- lift (makeSessionCookie (randomUUID platform) secure) ;;
         ret (randomUUID platform, Some c)
     end) ;;
  let sessionId : jsstring := fst session in
  let setCookie : option jsstring := snd session in
  match json request with
  | None => ret (Response_json (error_body "Invalid JSON") 400)
  | Some body =>
      message <- lift (trimmed_field body (js "message")) ;;
      if negb (truthy message) then
        ret (Response_json (error_body "Missing message") 400)
      else
        called <- call_stub (CHATROOMS env) sessionId
                    {| ChatRoom.method := js "POST";
                       ChatRoom.json :=
                         Some (JObject [(js "message", JString message)]) |} ;;
        match called with
        | Threw err =>
            ret (Response_json
                   (error_details_body "Failed to reach Durable Object"
                      (String_of_exn err))
                   502)
        | Returned doResp =>
            let ct := default [] (stub_content_type doResp) in
            let raw := stub_raw doResp in
            if includes ct (js "application/json") then
              match raw with
              | Unparsable _ =>
                  ret {| status := 502;
                         content_type := Some (js "application/json");
                         set_cookie := None;
                         body := JsonErrorRaw (js "DO returned invalid JSON") raw |}
              | Serialized parsed =>
                  if negb (stub_ok doResp) then
                    lift (Response_json_init
                            (JObject (spread parsed
                                      ++ [(js "error",
                                           JString (js "Durable Object error"))]))
                            (stub_status doResp))
                  else
                    reply <- lift (reply_of parsed) ;;
                    ret {| status := 200;
                           content_type := Some (js "application/json");
                           set_cookie :=
                             match setCookie with
                             | Some c => if truthy c then Some c else None
                             | None => None
                             end;
                           body :=
                             Json (JObject
                                     match reply with
                                     | Some r => [(js "reply", r)]
                                     | None => []
                                     end) |}
              end
            else
              ret {| status := 502;
                     content_type := Some (js "application/json");
                     set_cookie := None;
                     body := JsonErrorRaw (js "DO returned non-JSON response") raw |}
        end
  end.

(** [GET /] *)
Definition ui (platform : Platform) (request : Request) : Handler Response :=
  cookie <- lift (getCookie request (js "session")) ;;
  let secure := bool_decide (protocol request = js "https:") in
  header <-
    (match cookie with
     | Some sessionId =>
         if truthy sessionId then ret None
         else c <- lift (makeSessionCookie (randomUUID platform) secure) ;;
              ret (Some c)
     | None =>
         c <- lift (makeSessionCookie (randomUUID platform) secure) ;;
         ret (Some c)
     end) ;;
  ret {| status := 200;
         content_type := Some (js "text/html; charset=utf-8");
         set_cookie := header;
         body := HtmlPage |}.

(** [async fetch(request, env)]: an exception that escapes is the
    [Threw] outcome. *)
Definition fetch (platform : Platform) (env : Env) (request : Request)
  : Handler Response :=
  if bool_decide (method request = js "GET")
     && bool_decide (pathname request = js "/health") then
    ret (Response_json
           (JObject [(js "ok", JBool true);
                     (js "hasAI", JBool (match AI env with Some _ => true | None => false end));
                     (js "hasDO", JBool true);
                     (js "ts", JString (now_iso platform))])
           200)
  else if bool_decide (method request = js "GET")
          && bool_decide (pathname request = js "/") then
    ui platform request
  else if bool_decide (method request = js "POST")
          && bool_decide (pathname request = js "/api/chat") then
    api_chat platform env request
  else
    ret {| status := 404;
           content_type := Some (js "text/plain;charset=UTF-8");
           set_cookie := None;
           body := PlainText (js "Not found") |}.

End Handler.

Arguments DurableObjectNamespace : clear implicits.
Arguments Env : clear implicits.
Arguments State : clear implicits.

(** The namespace whose objects are ChatRooms: one [ChatRoom.State] per
    name, created empty on first use. *)
Definition chatrooms (AI : option ChatRoom.AiBinding)
  : DurableObjectNamespace (gmap jsstring ChatRoom.State) :=
  {| stub_fetch := fun name request rooms =>
       let (response, room) :=
         ChatRoom.fetch AI request (default ChatRoom.fresh (rooms !! name)) in
       (Returned {| stub_status := status response;
                    stub_content_type := content_type response;
                    stub_raw := match body response with
                                | Json v => Serialized v
                                | _ => Unparsable []
                                end |},
        <[name := room]> rooms) |}.

Definition deployed (AI : option ChatRoom.AiBinding)
  : Env (gmap jsstring ChatRoom.State) :=
  {| AI := AI; CHATROOMS := chatrooms AI |}.

End Worker.

(** ** Observations used by the statements *)

Definition user_says (message : jsstring) : ChatMessage :=
  {| role := user; content := message |}.
Definition assistant_says (reply : jsstring) : ChatMessage :=
  {| role := assistant; content := reply |}.
Definition priming : ChatMessage :=
  {| role := system; content := SYSTEM_PROMPT |}.

(** The history a ChatRoom holds in durable storage ([[]] when none). *)
Definition stored_history (s : ChatRoom.State) : History :=
  default [] (ChatRoom.storage s !! js "history").

Definition is_put (ev : ChatRoom.Event) : bool :=
  match ev with ChatRoom.StoragePut _ _ => true | _ => false end.
Definition is_ai_run (ev : ChatRoom.Event) : bool :=
  match ev with ChatRoom.AiRun _ => true | _ => false end.

(** The argument the ChatRoom passes to the inference binding. *)
Definition inference_input (messages : list ChatMessage) : ChatRoom.AiInput :=
  {| ChatRoom.ai_model := MODEL; ChatRoom.ai_messages := messages;
     ChatRoom.ai_max_tokens := 256; ChatRoom.ai_temperature := 6 # 10 |}.

Definition reply_body (reply : jsstring) : Body :=
  Json (JObject [(js "reply", JString reply)]).

Definition post (body : JSValue) : ChatRoom.Request :=
  {| ChatRoom.method := js "POST"; ChatRoom.json := Some body |}.

Definition message_body (message : jsstring) : JSValue :=
  JObject [(js "message", JString message)].

Definition room_holding (history : History) : ChatRoom.State :=
  {| ChatRoom.storage := {[ js "history" := history ]}; ChatRoom.trace := [] |}.

(** The roles the type [ChatMessage] of the source admits. *)
Definition chat_role (m : ChatMessage) : Prop :=
  role m = user \/ role m = assistant.

(** The state after [storage.put("history", value)]. *)
Definition after_put (value : History) (s : ChatRoom.State) : ChatRoom.State :=
  ChatRoom.log (ChatRoom.StoragePut (js "history") value)
    {| ChatRoom.storage := <[js "history" := value]> (ChatRoom.storage s);
       ChatRoom.trace := ChatRoom.trace s |}.


(** [POST /api/chat] with the header [Cookie: session=%] and a body that is
    not JSON. *)
Definition bad_cookie_request : Worker.Request :=
  {| Worker.method := js "POST";
     Worker.protocol := js "https:";
     Worker.pathname := js "/api/chat";
     Worker.cookie_header := Some (js "session=%");
     Worker.json := None |}.

(** [POST /api/chat] without a cookie. *)
Definition api_chat_request (v : JSValue) : Worker.Request :=
  {| Worker.method := js "POST";
     Worker.protocol := js "https:";
     Worker.pathname := js "/api/chat";
     Worker.cookie_header := None;
     Worker.json := Some v |}.

Definition example_platform : Worker.Platform :=
  {| Worker.randomUUID := js "3f2b8c1e-7a4d-4e9b-9c3a-5d6e7f8091a2";
     Worker.now_iso := js "2025-01-01T00:00:00.000Z" |}.

(** A namespace in which no object has run yet. *)
Definition no_rooms : Worker.State (gmap jsstring ChatRoom.State) :=
  {| Worker.objects := ∅; Worker.dispatched := [] |}.

(** A Unicode scalar value: a code point that is not a surrogate. *)
Definition is_scalar (cp : N) : Prop :=
  cp < 55296 \/ 57343 < cp <= 1114111.

(** The code units that [encodeURIComponent] emits. *)
Definition uri_safe (c : N) : Prop := is_uri_unreserved c = true \/ c = 37.

(** The name of one part of a [Cookie] header, as [getCookie] reads it. *)
Definition cookie_name (part : jsstring) : jsstring :=
  default [] (head (split 61 (trim part))).

(** The [name=value] pair of a cookie string: the text before its first
    semicolon. *)
Definition cookie_pair (cookie : jsstring) : jsstring :=
  default [] (head (split 59 cookie)).

(** A request that carries the given [Cookie] header. *)
Definition request_with_cookie (header : jsstring) : Worker.Request :=
  {| Worker.method := js "GET";
     Worker.protocol := js "https:";
     Worker.pathname := js "/";
     Worker.cookie_header := Some header;
     Worker.json := None |}.

(** A ChatRoom serving requests one after the other, each with the
    inference binding of its time. *)
Fixpoint serve (requests : list (option ChatRoom.AiBinding * ChatRoom.Request))
    (s : ChatRoom.State) : ChatRoom.State :=
  match requests with
  | [] => s
  | (AI, request) :: rest => serve rest (ChatRoom.fetch AI request s).2
  end.

Definition DEV_PREFIX : jsstring := js "DEV MODE (no Workers AI). You said: ".

(** ** Conversations *)

(** A history made of whole exchanges: a user entry followed by an
    assistant entry, repeated. *)
Fixpoint exchanges (h : History) : Prop :=
  match h with
  | [] => True
  | u :: a :: rest => role u = user /\ role a = assistant /\ exchanges rest
  | [_] => False
  end.

(** What a request and its response add to the conversation: the two entries
    of a successful exchange, nothing otherwise. *)
Definition exchange_of (request : ChatRoom.Request) (response : Response)
  : History :=
  if (status response =? 200)%Z then
    match ChatRoom.json request, body response with
    | Some sent, Json v =>
        match trimmed_field sent (js "message"), get_field v (js "reply") with
        | Returned message, Some (JString reply) =>
            [user_says message; assistant_says reply]
        | _, _ => []
        end
    | _, _ => []
    end
  else [].

(** The exchanges of the requests served from [s], in order. *)
Fixpoint transcript (requests : list (option ChatRoom.AiBinding * ChatRoom.Request))
    (s : ChatRoom.State) : History :=
  match requests with
  | [] => []
  | (AI, request) :: rest =>
      exchange_of request (ChatRoom.fetch AI request s).1
      ++ transcript rest (ChatRoom.fetch AI request s).2
  end.

(** Content that is not empty and has no white space at either end. *)
Definition trimmed_content (m : ChatMessage) : Prop :=
  content m <> [] /\ trim (content m) = content m.

(** ** Sessions *)

(** The session a request is served under: the one its cookie names, or a
    new one when the cookie is missing or empty. *)
Definition session_of (platform : Worker.Platform) (cookie : option jsstring)
  : jsstring :=
  match cookie with
  | Some sessionId => if truthy sessionId then sessionId else Worker.randomUUID platform
  | None => Worker.randomUUID platform
  end.

(** Whether the Worker mints a cookie for the request. *)
Definition mints (cookie : option jsstring) : bool :=
  match cookie with
  | Some sessionId => negb (truthy sessionId)
  | None => true
  end.

(** The three routes of the Worker. *)
Definition is_health (request : Worker.Request) : Prop :=
  Worker.method request = js "GET" /\ Worker.pathname request = js "/health".
Definition is_ui (request : Worker.Request) : Prop :=
  Worker.method request = js "GET" /\ Worker.pathname request = js "/".
Definition is_api_chat (request : Worker.Request) : Prop :=
  Worker.method request = js "POST" /\ Worker.pathname request = js "/api/chat".

(** The attributes [makeSessionCookie] appends. *)
Definition cookie_attributes (secure : bool) : list jsstring :=
  [js " Path=/"; js " HttpOnly"; js " SameSite=Lax"; js " Max-Age=2592000"]
  ++ (if secure then [js " Secure"] else []).

(** The cookie the Worker plans to set: minted for the new identifier when
    the request names no session. *)
Definition minted_cookie (platform : Worker.Platform) (request : Worker.Request)
    (cookie : option jsstring) : Outcome (option jsstring) :=
  if mints cookie then
    match Worker.makeSessionCookie (Worker.randomUUID platform)
            (bool_decide (Worker.protocol request = js "https:")) with
    | Returned c => Returned (Some c)
    | Threw e => Threw e
    end
  else Returned None.

(** The Worker state after one stub call. *)
Definition after_dispatch {W} (ws : Worker.State W) (name : jsstring)
    (sent : ChatRoom.Request) (w : W) : Worker.State W :=
  {| Worker.objects := w;
     Worker.dispatched := Worker.dispatched ws ++ [(name, sent)] |}.

(** ** Example bindings *)

(** An inference binding that answers [ pong ], padded with blanks. *)
Definition padded_pong : ChatRoom.AiBinding :=
  fun _ => Returned (JObject [(js "response", JString (js "  pong  "))]).

(** An inference binding that is out of service. *)
Definition overloaded : ChatRoom.AiBinding :=
  fun _ => Threw (Rejection (js "overloaded")).

(** A namespace whose stubs cannot be reached. *)
Definition unreachable : Worker.DurableObjectNamespace unit :=
  {| Worker.stub_fetch := fun _ _ w =>
       (Threw (Rejection (js "Network connection lost.")), w) |}.

(** A namespace whose objects answer 429 with a JSON error of their own. *)
Definition throttled : Worker.DurableObjectNamespace unit :=
  {| Worker.stub_fetch := fun _ _ w =>
       (Returned {| Worker.stub_status := 429;
                    Worker.stub_content_type := Some (js "application/json");
                    Worker.stub_raw :=
                      Serialized (JObject [(js "error", JString (js "Slow down"));
                                           (js "retryAfter", JNumber 3)]) |}, w) |}.

Definition no_objects : Worker.State unit :=
  {| Worker.objects := tt; Worker.dispatched := [] |}.

(** [POST /api/chat] carrying a [Cookie] header. *)
Definition api_chat_with_cookie (header : jsstring) (v : JSValue) : Worker.Request :=
  {| Worker.method := js "POST";
     Worker.protocol := js "https:";
     Worker.pathname := js "/api/chat";
     Worker.cookie_header := Some header;
     Worker.json := Some v |}.

(** [GET /] without cookies. *)
Definition first_visit : Worker.Request :=
  {| Worker.method := js "GET";
     Worker.protocol := js "https:";
     Worker.pathname := js "/";
     Worker.cookie_header := None;
     Worker.json := None |}.

(** * Properties *)

(** ** Strings *)

Lemma trimStart_clean (s : jsstring) :
  match trimStart s with
  | [] => True
  | c :: _ => is_white_space c = false
  end.
Proof.
  induction s as [|c s IH]; [done|].
  cbn [trimStart]. destruct (is_white_space c) eqn:Hc; [done|]. exact Hc.
Qed.

Lemma trimStart_fixed (c : N) (s : jsstring) :
  is_white_space c = false -> trimStart (c :: s) = c :: s.
Proof. intros Hc. cbn [trimStart]. by rewrite Hc. Qed.

Lemma trimStart_idem (s : jsstring) : trimStart (trimStart s) = trimStart s.
Proof.
  pose proof (trimStart_clean s) as H.
  destruct (trimStart s) as [|c t]; [done|]. by apply trimStart_fixed.
Qed.

Lemma trimStart_snoc (s : jsstring) (c : N) :
  is_white_space c = false -> trimStart (s ++ [c]) = trimStart s ++ [c].
Proof.
  intros Hc. induction s as [|x s IH].
  - cbn. by rewrite Hc.
  - cbn [app trimStart]. destruct (is_white_space x); [exact IH|done].
Qed.

Lemma trimEnd_cons (c : N) (s : jsstring) :
  is_white_space c = false -> trimEnd (c :: s) = c :: trimEnd s.
Proof.
  intros Hc. unfold trimEnd. rewrite reverse_cons, trimStart_snoc by done.
  by rewrite reverse_app.
Qed.

Lemma trimEnd_idem (s : jsstring) : trimEnd (trimEnd s) = trimEnd s.
Proof. unfold trimEnd. by rewrite reverse_involutive, trimStart_idem. Qed.

Lemma trim_idem (s : jsstring) : trim (trim s) = trim s.
Proof.
  unfold trim. pose proof (trimStart_clean s) as H.
  destruct (trimStart s) as [|c t]; [done|].
  rewrite trimEnd_cons by done. rewrite trimStart_fixed by done.
  rewrite <- trimEnd_cons by done. apply trimEnd_idem.
Qed.

Lemma is_prefix_of_refl (s : jsstring) : is_prefix_of s s = true.
Proof. induction s as [|c s IH]; [done|]. cbn. by rewrite N.eqb_refl. Qed.

Lemma includes_self (s : jsstring) : includes s s = true.
Proof. destruct s; cbn; [done|]. by rewrite N.eqb_refl, is_prefix_of_refl. Qed.

Lemma includes_app_r (pre s sub : jsstring) :
  includes s sub = true -> includes (pre ++ s) sub = true.
Proof.
  intros H. induction pre as [|c pre IH]; [done|].
  cbn [app includes]. rewrite IH. apply orb_true_r.
Qed.

Lemma trimmed_field_message (m : jsstring) :
  trimmed_field (message_body m) (js "message") = Returned (trim m).
Proof. reflexivity. Qed.

(** ** Coercion to a string *)

Lemma toString_array (x : JSValue) (rest : list JSValue) :
  toString (JArray (x :: rest)) =
  match element_toString x with
  | Threw e => Threw e
  | Returned sx =>
      match rest with
      | [] => Returned sx
      | _ :: _ =>
          match toString (JArray rest) with
          | Threw e => Threw e
          | Returned sr => Returned (sx ++ js "," ++ sr)
          end
      end
  end.
Proof. destruct x; reflexivity. Qed.

Lemma toString_throws_TypeError :
  forall (v : JSValue) (e : Exn), toString v = Threw e -> e = TypeError.
Proof.
  fix IH 1. intros [| b | n | s | elems | props] e.
  - by intros [= <-].
  - done.
  - done.
  - done.
  - revert elems e. fix IHl 1. intros [|x rest] e; [done|].
    rewrite toString_array.
    destruct (element_toString x) as [sx|ex] eqn:Hx.
    + pose proof (IHl rest) as IHrest.
      destruct rest as [|y rest']; [done|].
      destruct (toString (JArray (y :: rest'))); [done|].
      intros [= <-]. by apply IHrest.
    + intros [= <-]. pose proof (IH x ex) as IHx.
      destruct x; try done; by apply IHx.
  - cbn [toString]. destruct (own_property props _); [by intros [= <-]|done].
Qed.

(** ** The history buffer *)

Lemma shift_excess_drop (h : History) :
  shift_excess h = drop (length h - MAX_HISTORY) h.
Proof.
  induction h as [|x h IH]; [done|].
  cbn [shift_excess].
  destruct (Nat.ltb_spec MAX_HISTORY (length (x :: h))) as [Hlt|Hge];
    cbn [length] in *; unfold MAX_HISTORY in *.
  - rewrite IH. unfold MAX_HISTORY.
    replace (S (length h) - 20)%nat with (S (length h - 20)) by lia. done.
  - replace (S (length h) - 20)%nat with 0%nat by lia. done.
Qed.

Lemma shift_excess_length (h : History) :
  (length (shift_excess h) <= MAX_HISTORY)%nat.
Proof. rewrite shift_excess_drop, length_drop. lia. Qed.

Lemma shift_excess_suffix (h : History) : shift_excess h `suffix_of` h.
Proof. rewrite shift_excess_drop. apply suffix_drop. Qed.

(** Truncating before an append does not change the truncation after it. *)
Lemma shift_excess_app (h l : History) :
  shift_excess (shift_excess h ++ l) = shift_excess (h ++ l).
Proof.
  rewrite !shift_excess_drop, !length_app, length_drop.
  unfold MAX_HISTORY.
  destruct (decide (length h <= 20)%nat) as [Hle|Hgt].
  - replace (length h - 20)%nat with 0%nat by lia.
    rewrite !drop_0, Nat.sub_0_r. done.
  - rewrite !drop_app, drop_drop, length_drop. f_equal; f_equal; lia.
Qed.

Lemma shift_excess_push (h : History) (m : ChatMessage) :
  shift_excess (shift_excess h ++ [m]) = shift_excess (h ++ [m]).
Proof. apply shift_excess_app. Qed.

Lemma shift_excess_exchange (h : History) (m r : ChatMessage) :
  shift_excess (shift_excess (h ++ [m]) ++ [r])
  = drop (length h + 2 - MAX_HISTORY) (h ++ [m; r]).
Proof.
  rewrite shift_excess_push, shift_excess_drop.
  rewrite <- (assoc_L (++) h [m] [r]). cbn [app].
  rewrite length_app. cbn [length]. done.
Qed.

(** ** Running [ChatRoom.fetch] *)

Ltac run_fetch :=
  unfold ChatRoom.fetch, ChatRoom.handle, ChatRoom.generate, ChatRoom.bind,
    ChatRoom.ret, ChatRoom.lift, ChatRoom.storage_get, ChatRoom.storage_put,
    ChatRoom.ai_run, ChatRoom.log.

Ltac fetch_cases :=
  run_fetch; repeat case_match; simplify_eq/=.

Ltac in_cases H :=
  rewrite ?elem_of_cons, ?elem_of_nil in H; destruct_or?; simplify_eq/=.

Lemma shift_excess_Forall (P : ChatMessage -> Prop) (h : History) :
  Forall P h -> Forall P (shift_excess h).
Proof. rewrite shift_excess_drop. apply Forall_drop. Qed.

Lemma stored_history_after_put value s :
  stored_history (after_put value s) = value.
Proof. unfold stored_history, after_put. cbn. by rewrite lookup_insert_eq. Qed.

(** One request keeps the stored history within bounds and free of system
    entries. *)
Lemma fetch_preserves_invariant AI request s :
  (length (stored_history s) <= MAX_HISTORY)%nat /\
  Forall chat_role (stored_history s) ->
  (length (stored_history (ChatRoom.fetch AI request s).2) <= MAX_HISTORY)%nat /\
  Forall chat_role (stored_history (ChatRoom.fetch AI request s).2).
Proof.
  intros [Hlen Hroles].
  assert (Hpush : forall m r, Forall chat_role
            (shift_excess (shift_excess (stored_history s ++ [user_says m])
                           ++ [assistant_says r]))).
  { intros m r. apply shift_excess_Forall, Forall_app. split.
    - apply shift_excess_Forall, Forall_app. split; [done|].
      apply Forall_singleton. by left.
    - apply Forall_singleton. by right. }
  fetch_cases; try done.
  all: match goal with
       | |- context [stored_history {| ChatRoom.storage := <[?k:=?v]> ?m;
                                        ChatRoom.trace := ?t |}] =>
           replace (stored_history {| ChatRoom.storage := <[k:=v]> m;
                                      ChatRoom.trace := t |})
             with v by (unfold stored_history; cbn; by rewrite lookup_insert_eq)
       end.
  all: split; [apply shift_excess_length|apply Hpush].
Qed.

(** From an empty store, whatever requests are served, the stored history
    stays within [MAX_HISTORY] entries and holds no system entry. *)
Lemma served_history_invariant requests :
  (length (stored_history (serve requests ChatRoom.fresh)) <= MAX_HISTORY)%nat /\
  Forall chat_role (stored_history (serve requests ChatRoom.fresh)).
Proof.
  assert (Hgen : forall s,
            (length (stored_history s) <= MAX_HISTORY)%nat /\
            Forall chat_role (stored_history s) ->
            (length (stored_history (serve requests s)) <= MAX_HISTORY)%nat /\
            Forall chat_role (stored_history (serve requests s))).
  { induction requests as [|[AI request] rest IH]; intros s Hinv; [done|].
    cbn [serve]. by apply IH, fetch_preserves_invariant. }
  apply Hgen. change (stored_history ChatRoom.fresh) with ([] : History).
  split; [cbn; lia|constructor].
Qed.

(** C1. Whatever the stored history and the request, a history that
    [ChatRoom.fetch] writes to durable storage has at most [MAX_HISTORY]
    entries: it is the stored history with the request's message and then
    the reply appended, [shift_excess] applied after each append, which
    amounts to dropping entries from the front of the extended history until
    twenty remain.  A 200 response does write. *)
Theorem written_history_bounded AI request s response s' :
  ChatRoom.fetch AI request s = (response, s') ->
  exists new, ChatRoom.trace s' = ChatRoom.trace s ++ new /\
    (status response = 200%Z ->
     exists value, ChatRoom.StoragePut (js "history") value ∈ new) /\
    forall key value, ChatRoom.StoragePut key value ∈ new ->
      key = js "history" /\
      ChatRoom.storage s' !! js "history" = Some value /\
      (length value <= MAX_HISTORY)%nat /\
      exists sent message reply,
        ChatRoom.json request = Some sent /\
        trimmed_field sent (js "message") = Returned message /\
        body response = reply_body reply /\
        value = shift_excess
                  (shift_excess (stored_history s ++ [user_says message])
                   ++ [assistant_says reply]) /\
        value = drop (length (stored_history s) + 2 - MAX_HISTORY)
                  (stored_history s ++ [user_says message; assistant_says reply]).
Proof.
  intros Hf. revert Hf. fetch_cases; intros Hf; simplify_eq/=.
  all: try (exists []; rewrite app_nil_r; split; [done|]; split; [done|];
            intros ?? Hin; by apply elem_of_nil in Hin).
  all: rewrite <- ?(assoc_L (++)); eexists; split; [reflexivity|]; cbn [app].
  all: split; [ intros; try done; eexists; rewrite !elem_of_cons; eauto 10 | ].
  all: intros key value Hin; in_cases Hin.
  all: split; [done|]; split; [ by rewrite lookup_insert_eq|].
  all: split; [apply shift_excess_length|].
  all: eexists _, _, _; split; [reflexivity|]; split; [eassumption|].
  all: split; [reflexivity|]; split; [reflexivity|apply shift_excess_exchange].
Qed.

Lemma written_history_bounded_witness :
  exists response s',
    ChatRoom.fetch None (post (message_body (js "hi")))
      (room_holding (replicate 21 (user_says (js "old")))) = (response, s') /\
    exists new, ChatRoom.trace s' = [] ++ new /\
      (status response = 200%Z ->
       exists value, ChatRoom.StoragePut (js "history") value ∈ new) /\
      forall key value, ChatRoom.StoragePut key value ∈ new ->
        key = js "history" /\
        ChatRoom.storage s' !! js "history" = Some value /\
        (length value <= MAX_HISTORY)%nat /\
        exists sent message reply,
          ChatRoom.json (post (message_body (js "hi"))) = Some sent /\
          trimmed_field sent (js "message") = Returned message /\
          body response = reply_body reply /\
          value = shift_excess
                    (shift_excess
                       (stored_history
                          (room_holding (replicate 21 (user_says (js "old"))))
                        ++ [user_says message])
                     ++ [assistant_says reply]) /\
          value = drop (length (stored_history
                                  (room_holding (replicate 21 (user_says (js "old")))))
                        + 2 - MAX_HISTORY)
                    (stored_history
                       (room_holding (replicate 21 (user_says (js "old"))))
                     ++ [user_says message; assistant_says reply]).
Proof.
  eexists _, _. split; [vm_compute; reflexivity|].
  apply (written_history_bounded None (post (message_body (js "hi")))
           (room_holding (replicate 21 (user_says (js "old"))))).
  vm_compute; reflexivity.
Defined.

(** C2. When the stored history holds only user and assistant entries, so
    does every history [ChatRoom.fetch] writes and the history stored
    afterwards; the system priming message occurs only at the head of the
    message list handed to the inference binding, followed by the truncated
    history. *)
Theorem system_message_never_persisted AI request s response s' :
  Forall chat_role (stored_history s) ->
  ChatRoom.fetch AI request s = (response, s') ->
  Forall chat_role (stored_history s') /\
  exists new, ChatRoom.trace s' = ChatRoom.trace s ++ new /\
    (forall key value, ChatRoom.StoragePut key value ∈ new ->
       Forall chat_role value) /\
    (forall input, ChatRoom.AiRun input ∈ new ->
       exists history,
         ChatRoom.ai_messages input = priming :: history /\
         Forall chat_role history).
Proof.
  intros Hs Hf.
  assert (Huser : forall m, Forall chat_role
            (shift_excess (stored_history s ++ [user_says m]))).
  { intros m. apply shift_excess_Forall, Forall_app. split; [done|].
    apply Forall_singleton. by left. }
  assert (Hpush : forall m r, Forall chat_role
            (shift_excess (shift_excess (stored_history s ++ [user_says m])
                           ++ [assistant_says r]))).
  { intros m r. apply shift_excess_Forall, Forall_app. split; [apply Huser|].
    apply Forall_singleton. by right. }
  revert Hf. fetch_cases; intros Hf; simplify_eq/=.
  all: try (split; [done|]; exists []; rewrite app_nil_r; split; [done|];
            split; [intros ?? Hin|intros ? Hin]; by apply elem_of_nil in Hin).
  all: rewrite <- ?(assoc_L (++)); cbn [app].
  all: split;
    [ first [ done
            | unfold stored_history; cbn; rewrite lookup_insert_eq; apply Hpush ] | ].
  all: eexists; split; [reflexivity|].
  all: split; [intros key value Hin|intros input Hin]; in_cases Hin; try done.
  all: try apply Hpush.
  all: eexists; split; [reflexivity|apply Huser].
Qed.

Lemma system_message_never_persisted_witness :
  let s := room_holding [user_says (js "hello"); assistant_says (js "hi there")] in
  let AI : ChatRoom.AiBinding :=
    fun _ => Returned (JObject [(js "response", JString (js "fine"))]) in
  Forall chat_role (stored_history s) /\
  exists response s',
    ChatRoom.fetch (Some AI) (post (message_body (js "how are you"))) s
    = (response, s') /\
    Forall chat_role (stored_history s') /\
    exists new, ChatRoom.trace s' = ChatRoom.trace s ++ new /\
      (forall key value, ChatRoom.StoragePut key value ∈ new ->
         Forall chat_role value) /\
      (forall input, ChatRoom.AiRun input ∈ new ->
         exists history,
           ChatRoom.ai_messages input = priming :: history /\
           Forall chat_role history).
Proof.
  intros s AI.
  assert (Hs : Forall chat_role (stored_history s)).
  { apply Forall_cons. split; [by left|]. apply Forall_singleton. by right. }
  split; [exact Hs|].
  eexists _, _. split; [vm_compute; reflexivity|].
  eapply (system_message_never_persisted (Some AI)
            (post (message_body (js "how are you"))) s); [exact Hs|].
  vm_compute; reflexivity.
Defined.

(** C3. [ChatRoom.fetch] answers 200, 400, 405, 500 or 502.  Unless the
    status is 200 the request makes no write and durable storage is what it
    was before; a 200 response comes with exactly one write, of the key
    [history]. *)
Theorem storage_written_only_on_success AI request s response s' :
  ChatRoom.fetch AI request s = (response, s') ->
  status response ∈ [200; 400; 405; 500; 502]%Z /\
  exists new, ChatRoom.trace s' = ChatRoom.trace s ++ new /\
    (status response <> 200%Z ->
       ChatRoom.storage s' = ChatRoom.storage s /\
       stored_history s' = stored_history s /\
       Forall (fun ev => is_put ev = false) new) /\
    (status response = 200%Z ->
       exists value,
         ChatRoom.storage s' = <[js "history" := value]> (ChatRoom.storage s) /\
         filter (fun ev => is_put ev = true) new
         = [ChatRoom.StoragePut (js "history") value]).
Proof.
  intros Hf. revert Hf. fetch_cases; intros Hf; simplify_eq/=.
  all: split; [rewrite !elem_of_cons; auto 10|].
  all: rewrite <- ?(assoc_L (++)); cbn [app].
  all: try (exists []; rewrite app_nil_r; split; [done|]; split; [done|]; done).
  all: eexists; split; [reflexivity|]; split; intros Hst; try done.
  all: try (split; [done|]; split; [done|]; repeat constructor).
  all: eexists; split; reflexivity.
Qed.

Lemma storage_written_only_on_success_witness :
  let s := room_holding [user_says (js "hello"); assistant_says (js "hi there")] in
  let AI : ChatRoom.AiBinding := fun _ => Threw (Rejection (js "overloaded")) in
  exists response s',
    ChatRoom.fetch (Some AI) (post (message_body (js "again"))) s = (response, s') /\
    status response = 502%Z /\
    status response ∈ [200; 400; 405; 500; 502]%Z /\
    exists new, ChatRoom.trace s' = ChatRoom.trace s ++ new /\
      (status response <> 200%Z ->
         ChatRoom.storage s' = ChatRoom.storage s /\
         stored_history s' = stored_history s /\
         Forall (fun ev => is_put ev = false) new) /\
      (status response = 200%Z ->
         exists value,
           ChatRoom.storage s' = <[js "history" := value]> (ChatRoom.storage s) /\
           filter (fun ev => is_put ev = true) new
           = [ChatRoom.StoragePut (js "history") value]).
Proof.
  intros s AI. eexists _, _.
  split; [vm_compute; reflexivity|]. split; [reflexivity|].
  eapply (storage_written_only_on_success (Some AI)
            (post (message_body (js "again"))) s).
  vm_compute; reflexivity.
Defined.

(** ** Requests to the ChatRoom *)

Lemma trimmed_field_coerced v key raw :
  coerced_field v key = Returned raw -> trimmed_field v key = Returned (trim raw).
Proof. unfold trimmed_field. by intros ->. Qed.

Lemma truthy_nonempty (s : jsstring) : s <> [] -> truthy s = true.
Proof. by destruct s. Qed.

(** [ChatRoom.fetch] on a request that passes validation. *)
Lemma fetch_valid AI request sent message s :
  ChatRoom.method request = js "POST" ->
  ChatRoom.json request = Some sent ->
  trimmed_field sent (js "message") = Returned message ->
  message <> [] ->
  ChatRoom.fetch AI request s =
    let s1 := ChatRoom.log (ChatRoom.StorageGet (js "history")) s in
    let history := shift_excess (stored_history s ++ [user_says message]) in
    match AI with
    | None =>
        let reply := DEV_PREFIX ++ message in
        (Response_json (JObject [(js "reply", JString reply)]) 200,
         after_put (shift_excess (history ++ [assistant_says reply])) s1)
    | Some run =>
        let input := inference_input (priming :: history) in
        let s2 := ChatRoom.log (ChatRoom.AiRun input) s1 in
        match run input with
        | Threw err =>
            (Response_json
               (error_details_body "Workers AI call failed" (String_of_exn err)) 502,
             s2)
        | Returned aiResult =>
            match trimmed_field aiResult (js "response") with
            | Threw e =>
                (Response_json
                   (error_details_body "Unhandled DO exception" (String_of_exn e)) 500,
                 s2)
            | Returned reply =>
                if truthy reply then
                  (Response_json (JObject [(js "reply", JString reply)]) 200,
                   after_put (shift_excess (history ++ [assistant_says reply])) s2)
                else
                  (Response_json
                     (JObject [(js "error", JString (js "Empty AI response"));
                               (js "aiResult", aiResult)]) 502,
                   s2)
            end
        end
    end.
Proof.
  intros Hm Hj Hc Hne. apply truthy_nonempty in Hne.
  unfold ChatRoom.fetch, ChatRoom.handle. rewrite Hm, Hj, Hc.
  rewrite bool_decide_eq_true_2 by done.
  unfold ChatRoom.bind at 1. unfold ChatRoom.lift at 1. cbv beta iota. rewrite Hne.
  cbv beta iota delta [negb].
  destruct AI as [run|]; [|reflexivity].
  unfold ChatRoom.generate, ChatRoom.storage_get, ChatRoom.ai_run.
  unfold ChatRoom.bind, ChatRoom.lift, ChatRoom.ret.
  cbv beta iota zeta.
  fold (stored_history s). fold (user_says message). fold priming.
  fold (inference_input (priming :: shift_excess (stored_history s ++ [user_says message]))).
  destruct (run _) as [aiResult|err]; [|reflexivity].
  cbv beta iota.
  destruct (trimmed_field aiResult _) as [reply|e]; [|reflexivity].
  destruct (truthy reply); reflexivity.
Qed.

Lemma fetch_not_post AI request s :
  ChatRoom.method request <> js "POST" ->
  ChatRoom.fetch AI request s
  = (Response_json (error_body "Method not allowed") 405, s).
Proof.
  intros Hm. unfold ChatRoom.fetch, ChatRoom.handle.
  by rewrite bool_decide_eq_false_2.
Qed.

Lemma fetch_invalid_json AI request s :
  ChatRoom.method request = js "POST" ->
  ChatRoom.json request = None ->
  ChatRoom.fetch AI request s = (Response_json (error_body "Invalid JSON") 400, s).
Proof.
  intros Hm Hj. unfold ChatRoom.fetch, ChatRoom.handle.
  by rewrite Hm, Hj, bool_decide_eq_true_2.
Qed.

Lemma fetch_blank_message AI request sent s :
  ChatRoom.method request = js "POST" ->
  ChatRoom.json request = Some sent ->
  trimmed_field sent (js "message") = Returned [] ->
  ChatRoom.fetch AI request s
  = (Response_json (error_body "Missing message") 400, s).
Proof.
  intros Hm Hj Hc. unfold ChatRoom.fetch, ChatRoom.handle.
  rewrite Hm, Hj, Hc, bool_decide_eq_true_2 by done. reflexivity.
Qed.

Lemma fetch_uncoercible_message AI request sent e s :
  ChatRoom.method request = js "POST" ->
  ChatRoom.json request = Some sent ->
  trimmed_field sent (js "message") = Threw e ->
  ChatRoom.fetch AI request s
  = (Response_json
       (error_details_body "Unhandled DO exception" (String_of_exn e)) 500, s).
Proof.
  intros Hm Hj Hc. unfold ChatRoom.fetch, ChatRoom.handle.
  rewrite Hm, Hj, Hc, bool_decide_eq_true_2 by done. reflexivity.
Qed.

(** C6 (amended). A request that passes validation, handled without an
    inference binding, makes no inference call and is answered 200 with the
    reply [DEV MODE (no Workers AI). You said: ] followed by the trimmed
    message.  The reply therefore contains the trimmed message; it contains
    the message as sent whenever trimming leaves that message unchanged. *)
Theorem dev_mode_reply request sent raw s response s' :
  ChatRoom.method request = js "POST" ->
  ChatRoom.json request = Some sent ->
  coerced_field sent (js "message") = Returned raw ->
  trim raw <> [] ->
  ChatRoom.fetch None request s = (response, s') ->
  status response = 200%Z /\
  body response = reply_body (DEV_PREFIX ++ trim raw) /\
  includes (DEV_PREFIX ++ trim raw) (trim raw) = true /\
  (trim raw = raw -> includes (DEV_PREFIX ++ trim raw) raw = true) /\
  exists new, ChatRoom.trace s' = ChatRoom.trace s ++ new /\
    Forall (fun ev => is_ai_run ev = false) new.
Proof.
  intros Hm Hj Hc Hne Hf. apply trimmed_field_coerced in Hc.
  rewrite (fetch_valid None request sent (trim raw) s Hm Hj Hc Hne) in Hf.
  cbv zeta in Hf. simplify_eq.
  split; [done|]. split; [done|].
  split; [apply includes_app_r, includes_self|].
  split; [intros Heq; rewrite Heq; apply includes_app_r, includes_self|].
  unfold after_put, ChatRoom.log. cbn [ChatRoom.trace].
  rewrite <- (assoc_L (++)). eexists; split; [reflexivity|].
  repeat constructor.
Qed.

Lemma dev_mode_reply_witness :
  let request := post (JObject [(js "message", JNumber 42)]) in
  ChatRoom.method request = js "POST" /\
  ChatRoom.json request = Some (JObject [(js "message", JNumber 42)]) /\
  coerced_field (JObject [(js "message", JNumber 42)]) (js "message")
  = Returned (js "42") /\
  trim (js "42") <> [] /\
  exists response s',
    ChatRoom.fetch None request ChatRoom.fresh = (response, s') /\
    status response = 200%Z /\
    body response = reply_body (DEV_PREFIX ++ trim (js "42")) /\
    includes (DEV_PREFIX ++ trim (js "42")) (trim (js "42")) = true /\
    (trim (js "42") = js "42" ->
     includes (DEV_PREFIX ++ trim (js "42")) (js "42") = true) /\
    exists new, ChatRoom.trace s' = ChatRoom.trace ChatRoom.fresh ++ new /\
      Forall (fun ev => is_ai_run ev = false) new.
Proof.
  intros request.
  assert (Hne : trim (js "42") <> []) by (vm_compute; discriminate).
  split; [reflexivity|]. split; [reflexivity|]. split; [reflexivity|].
  split; [exact Hne|].
  eexists _, _. split; [vm_compute; reflexivity|].
  apply (dev_mode_reply request (JObject [(js "message", JNumber 42)]) (js "42")
           ChatRoom.fresh);
    [reflexivity | reflexivity | reflexivity | exact Hne | vm_compute; reflexivity].
Defined.

(** C6, as stated, at the message [hi ] (one trailing space): the reply is
    [DEV MODE (no Workers AI). You said: hi], which does not contain the
    message as it was sent. *)
Lemma dev_mode_reply_omits_padded_message :
  let response :=
    (ChatRoom.fetch None (post (message_body (js "hi "))) ChatRoom.fresh).1 in
  status response = 200%Z /\
  body response = reply_body (js "DEV MODE (no Workers AI). You said: hi") /\
  includes (js "DEV MODE (no Workers AI). You said: hi") (js "hi ") = false.
Proof. vm_compute. repeat split. Qed.

(** C7. With an inference binding configured and a request that passes
    validation: when the inference call throws, the response is 502 with the
    error [Workers AI call failed] and the failure details; when the call
    returns a result whose reply is empty after trimming, the response is 502
    with the error [Empty AI response] and the raw result. *)
Theorem inference_failure_is_502 run request sent raw s response s' :
  ChatRoom.method request = js "POST" ->
  ChatRoom.json request = Some sent ->
  coerced_field sent (js "message") = Returned raw ->
  trim raw <> [] ->
  ChatRoom.fetch (Some run) request s = (response, s') ->
  let input :=
    inference_input
      (priming :: shift_excess (stored_history s ++ [user_says (trim raw)])) in
  (forall err,
     run input = Threw err ->
     status response = 502%Z /\
     body response
     = Json (JObject [(js "error", JString (js "Workers AI call failed"));
                      (js "details", JString (String_of_exn err))])) /\
  (forall aiResult text,
     run input = Returned aiResult ->
     coerced_field aiResult (js "response") = Returned text ->
     trim text = [] ->
     status response = 502%Z /\
     body response
     = Json (JObject [(js "error", JString (js "Empty AI response"));
                      (js "aiResult", aiResult)])).
Proof.
  intros Hm Hj Hc Hne Hf input. apply trimmed_field_coerced in Hc.
  rewrite (fetch_valid (Some run) request sent (trim raw) s Hm Hj Hc Hne) in Hf.
  cbv zeta in Hf. fold input in Hf. split.
  - intros err Hr. rewrite Hr in Hf. simplify_eq. split; reflexivity.
  - intros aiResult text Hr Hct Hblank. rewrite Hr in Hf.
    apply trimmed_field_coerced in Hct. rewrite Hct, Hblank in Hf.
    cbn [truthy] in Hf. simplify_eq. split; reflexivity.
Qed.

Lemma inference_failure_is_502_witness :
  let run : ChatRoom.AiBinding :=
    fun _ => Returned (JObject [(js "response", JString (js "  "))]) in
  let request := post (message_body (js "ping")) in
  let input :=
    inference_input
      (priming :: shift_excess (stored_history ChatRoom.fresh
                                ++ [user_says (trim (js "ping"))])) in
  trim (js "ping") <> [] /\
  exists response s',
    ChatRoom.fetch (Some run) request ChatRoom.fresh = (response, s') /\
    (forall err,
       run input = Threw err ->
       status response = 502%Z /\
       body response
       = Json (JObject [(js "error", JString (js "Workers AI call failed"));
                        (js "details", JString (String_of_exn err))])) /\
    (forall aiResult text,
       run input = Returned aiResult ->
       coerced_field aiResult (js "response") = Returned text ->
       trim text = [] ->
       status response = 502%Z /\
       body response
       = Json (JObject [(js "error", JString (js "Empty AI response"));
                        (js "aiResult", aiResult)])).
Proof.
  intros run request input.
  assert (Hne : trim (js "ping") <> []) by (vm_compute; discriminate).
  split; [exact Hne|].
  eexists _, _. split; [vm_compute; reflexivity|].
  eapply (inference_failure_is_502 run request (message_body (js "ping"))
           (js "ping") ChatRoom.fresh);
    [reflexivity | reflexivity | reflexivity | exact Hne | vm_compute; reflexivity].
Defined.

(** A 200 response tells what was stored. *)
Lemma fetch_success AI request s response s' sent raw reply :
  ChatRoom.json request = Some sent ->
  coerced_field sent (js "message") = Returned raw ->
  ChatRoom.fetch AI request s = (response, s') ->
  status response = 200%Z ->
  body response = reply_body reply ->
  stored_history s'
  = shift_excess (shift_excess (stored_history s ++ [user_says (trim raw)])
                  ++ [assistant_says reply]).
Proof.
  intros Hj Hc Hf Hst Hb. apply trimmed_field_coerced in Hc.
  destruct (decide (ChatRoom.method request = js "POST")) as [Hm|Hm].
  2: { rewrite fetch_not_post in Hf by done. by simplify_eq. }
  destruct (decide (trim raw = [])) as [Hblank|Hne].
  { rewrite Hblank in Hc. rewrite (fetch_blank_message _ _ sent) in Hf by done.
    by simplify_eq. }
  rewrite (fetch_valid AI request sent (trim raw) s Hm Hj Hc Hne) in Hf.
  cbv zeta in Hf. destruct AI as [run|].
  - destruct (run _) as [aiResult|err]; [|by simplify_eq].
    destruct (trimmed_field aiResult _) as [r|e]; [|by simplify_eq].
    destruct (truthy r); [|by simplify_eq].
    simplify_eq. unfold reply_body in Hb. cbn in Hb. simplify_eq.
    by rewrite stored_history_after_put.
  - simplify_eq. unfold reply_body in Hb. cbn in Hb. simplify_eq.
    by rewrite stored_history_after_put.
Qed.

(** C8 (amended). After two successive successful exchanges, of messages
    [M1] then [M2] answered [R1] then [R2], the stored history is the
    previous history followed by user:trim(M1), assistant:R1, user:trim(M2),
    assistant:R2, cut from the front to its last twenty entries; it ends with
    those four entries. *)
Theorem two_exchanges_history AI1 AI2 request1 request2 sent1 sent2
    M1 M2 R1 R2 s s1 s2 response1 response2 :
  ChatRoom.json request1 = Some sent1 ->
  coerced_field sent1 (js "message") = Returned M1 ->
  ChatRoom.json request2 = Some sent2 ->
  coerced_field sent2 (js "message") = Returned M2 ->
  ChatRoom.fetch AI1 request1 s = (response1, s1) ->
  status response1 = 200%Z ->
  body response1 = reply_body R1 ->
  ChatRoom.fetch AI2 request2 s1 = (response2, s2) ->
  status response2 = 200%Z ->
  body response2 = reply_body R2 ->
  let exchanged :=
    [user_says (trim M1); assistant_says R1;
     user_says (trim M2); assistant_says R2] in
  stored_history s2
  = drop (length (stored_history s ++ exchanged) - MAX_HISTORY)
      (stored_history s ++ exchanged) /\
  exchanged `suffix_of` stored_history s2.
Proof.
  intros Hj1 Hc1 Hj2 Hc2 Hf1 Hst1 Hb1 Hf2 Hst2 Hb2 exchanged.
  rewrite (fetch_success _ _ _ _ _ _ _ _ Hj2 Hc2 Hf2 Hst2 Hb2).
  rewrite (fetch_success _ _ _ _ _ _ _ _ Hj1 Hc1 Hf1 Hst1 Hb1).
  repeat (rewrite shift_excess_app; rewrite <- ?(assoc_L (++))).
  rewrite shift_excess_drop.
  cbn [app]. fold exchanged.
  split; [reflexivity|].
  rewrite length_app. cbn [length]. unfold MAX_HISTORY.
  set (h := stored_history s).
  exists (drop (length h + 4 - 20) h).
  rewrite <- drop_app_le by lia. done.
Qed.

Lemma two_exchanges_history_witness :
  let s := room_holding (replicate 19 (user_says (js "old"))) in
  let r1 := ChatRoom.fetch None (post (message_body (js " one "))) s in
  let r2 := ChatRoom.fetch None (post (message_body (js "two"))) r1.2 in
  let exchanged :=
    [user_says (trim (js " one ")); assistant_says (DEV_PREFIX ++ js "one");
     user_says (trim (js "two")); assistant_says (DEV_PREFIX ++ js "two")] in
  status r1.1 = 200%Z /\ status r2.1 = 200%Z /\
  stored_history r2.2
  = drop (length (stored_history s ++ exchanged) - MAX_HISTORY)
      (stored_history s ++ exchanged) /\
  exchanged `suffix_of` stored_history r2.2.
Proof.
  intros s r1 r2 exchanged.
  split; [reflexivity|]. split; [reflexivity|].
  apply (two_exchanges_history None None
           (post (message_body (js " one "))) (post (message_body (js "two")))
           (message_body (js " one ")) (message_body (js "two"))
           (js " one ") (js "two") (DEV_PREFIX ++ js "one") (DEV_PREFIX ++ js "two")
           s r1.2 r2.2 r1.1 r2.1);
    first [ reflexivity | vm_compute; reflexivity ].
Defined.

(** C8, as stated, at [M1] the message [ hi ] (padded with one space on each
    side) and [M2] the message [yo], from an empty history: both exchanges
    succeed and the stored history holds user:hi, not user:[ hi ]. *)
Lemma padded_message_not_stored_verbatim :
  let r1 := ChatRoom.fetch None (post (message_body (js " hi "))) ChatRoom.fresh in
  let r2 := ChatRoom.fetch None (post (message_body (js "yo"))) r1.2 in
  let R1 := js "DEV MODE (no Workers AI). You said: hi" in
  let R2 := js "DEV MODE (no Workers AI). You said: yo" in
  status r1.1 = 200%Z /\ body r1.1 = reply_body R1 /\
  status r2.1 = 200%Z /\ body r2.1 = reply_body R2 /\
  stored_history r2.2
  = [user_says (js "hi"); assistant_says R1; user_says (js "yo"); assistant_says R2] /\
  ~ [user_says (js " hi "); assistant_says R1; user_says (js "yo"); assistant_says R2]
    `suffix_of` stored_history r2.2.
Proof.
  intros r1 r2 R1 R2.
  split; [reflexivity|]. split; [reflexivity|].
  split; [reflexivity|]. split; [reflexivity|].
  split; [reflexivity|].
  intros Hsuffix. apply (bool_decide_pack _) in Hsuffix.
  vm_compute in Hsuffix. exact Hsuffix.
Qed.

(** ** Requests to the Worker *)

Ltac js_neq := let H := fresh in intros H; vm_compute in H; discriminate H.

Lemma fetch_api_chat {W} platform (env : Worker.Env W) request :
  Worker.method request = js "POST" ->
  Worker.pathname request = js "/api/chat" ->
  Worker.fetch platform env request = Worker.api_chat platform env request.
Proof.
  intros Hm Hp. unfold Worker.fetch. rewrite Hm, Hp.
  rewrite (bool_decide_eq_false_2 (js "POST" = js "GET")) by js_neq.
  cbn [andb].
  rewrite (bool_decide_eq_true_2 (js "POST" = js "POST")) by done.
  rewrite (bool_decide_eq_true_2 (js "/api/chat" = js "/api/chat")) by done.
  reflexivity.
Qed.

Lemma makeSessionCookie_truthy sessionId secure c :
  Worker.makeSessionCookie sessionId secure = Returned c -> truthy c = true.
Proof.
  unfold Worker.makeSessionCookie. destruct (encodeURIComponent sessionId); [|done].
  intros [= <-]. reflexivity.
Qed.

Ltac run_api_chat :=
  unfold Worker.api_chat, Worker.call_stub, Worker.Response_json_init,
    Worker.reply_of, Worker.bind, Worker.lift, Worker.ret.

(** C5. For a [POST /api/chat] request without a session cookie, the
    session is named by the freshly generated identifier; a response carries
    a [set-cookie] header exactly when its status is 200, and the header is
    then the cookie minted for that identifier.  The 400 and 502 responses
    and the statuses propagated from the Durable Object carry none. *)
Theorem cookie_set_only_on_success {W} platform (env : Worker.Env W)
    request ws response ws' :
  Worker.method request = js "POST" ->
  Worker.pathname request = js "/api/chat" ->
  Worker.getCookie request (js "session") = Returned None ->
  Worker.fetch platform env request ws = (Returned response, ws') ->
  (set_cookie response <> None <-> status response = 200%Z) /\
  (status response = 200%Z ->
   Worker.makeSessionCookie (Worker.randomUUID platform)
     (bool_decide (Worker.protocol request = js "https:"))
   = Returned (default [] (set_cookie response))) /\
  (forall name sent,
     (name, sent) ∈ drop (length (Worker.dispatched ws)) (Worker.dispatched ws') ->
     name = Worker.randomUUID platform).
Proof.
  intros Hm Hp Hc. rewrite fetch_api_chat by done.
  run_api_chat. rewrite Hc. cbv beta iota.
  destruct (Worker.makeSessionCookie _ _) as [c|e] eqn:Hmk; [|done].
  pose proof (makeSessionCookie_truthy _ _ _ Hmk) as Htc.
  cbv beta iota zeta. cbn [fst snd].
  repeat case_match; intros Hf; simplify_eq/=.
  all: rewrite ?drop_all, ?drop_app_length.
  all: try (split; [split; [done|discriminate]|]; split; [discriminate|]; intros ?? Hin; by in_cases Hin).
  1: { assert (Hne : Worker.stub_status a1 <> 200%Z).
       { intros Heq. unfold Worker.stub_ok in *. rewrite Heq in *. done. }
       split; [split; [done|intros; by exfalso]|]. split; [intros; by exfalso|].
       intros ?? Hin. by in_cases Hin. }
  all: split; [split; [done|discriminate]|]; split; [done|].
  all: intros ?? Hin; by in_cases Hin.
Qed.

Lemma cookie_set_only_on_success_witness :
  let request := api_chat_request (message_body (js "hello")) in
  Worker.method request = js "POST" /\
  Worker.pathname request = js "/api/chat" /\
  Worker.getCookie request (js "session") = Returned None /\
  exists response ws',
    Worker.fetch example_platform (Worker.deployed None) request no_rooms
    = (Returned response, ws') /\
    status response = 200%Z /\
    (set_cookie response <> None <-> status response = 200%Z) /\
    (status response = 200%Z ->
     Worker.makeSessionCookie (Worker.randomUUID example_platform)
       (bool_decide (Worker.protocol request = js "https:"))
     = Returned (default [] (set_cookie response))) /\
    (forall name sent,
       (name, sent)
       ∈ drop (length (Worker.dispatched no_rooms)) (Worker.dispatched ws') ->
       name = Worker.randomUUID example_platform).
Proof.
  intros request.
  split; [reflexivity|]. split; [reflexivity|]. split; [reflexivity|].
  eexists _, _. split; [vm_compute; reflexivity|]. split; [reflexivity|].
  apply (cookie_set_only_on_success example_platform (Worker.deployed None)
           request no_rooms); first [ reflexivity | vm_compute; reflexivity ].
Defined.

Lemma trimmed_field_trimmed v key m :
  trimmed_field v key = Returned m -> trim m = m.
Proof.
  unfold trimmed_field. destruct (coerced_field v key); [|done].
  intros [= <-]. apply trim_idem.
Qed.

(** When the session cookie can be decoded, a body that is not JSON or
    whose message is missing or blank is answered 400 and the Worker state
    is untouched: no stub was called, so no Durable Object ran. *)
Lemma invalid_body_rejected_before_dispatch {W} platform (env : Worker.Env W)
    request ws cookie encoded :
  Worker.method request = js "POST" ->
  Worker.pathname request = js "/api/chat" ->
  Worker.getCookie request (js "session") = Returned cookie ->
  encodeURIComponent (Worker.randomUUID platform) = Returned encoded ->
  Worker.json request = None \/
  (exists sent, Worker.json request = Some sent /\
                trimmed_field sent (js "message") = Returned []) ->
  exists response,
    Worker.fetch platform env request ws = (Returned response, ws) /\
    status response = 400%Z /\ set_cookie response = None.
Proof.
  intros Hm Hp Hc He Hbad. rewrite fetch_api_chat by done.
  run_api_chat. unfold Worker.makeSessionCookie. rewrite Hc, He. cbv beta iota.
  destruct Hbad as [Hj|(sent & Hj & Ht)]; rewrite Hj, ?Ht.
  all: destruct cookie as [[|]|]; cbv beta iota zeta; cbn [truthy negb fst snd].
  all: eexists; split; [reflexivity|]; split; reflexivity.
Qed.

(** C4, at a request the claim covers: [POST /api/chat] whose body is not
    JSON, sent with the header [Cookie: session=%].  [getCookie] decodes the
    cookie before the body is read, [decodeURIComponent] throws, and the
    exception escapes the handler: no 400 response is produced. *)
Theorem malformed_session_cookie_preempts_validation {W} platform
    (env : Worker.Env W) ws :
  Worker.json bad_cookie_request = None /\
  Worker.fetch platform env bad_cookie_request ws = (Threw URIError, ws).
Proof.
  split; [reflexivity|].
  rewrite fetch_api_chat by reflexivity.
  unfold Worker.api_chat, Worker.bind, Worker.lift.
  replace (Worker.getCookie bad_cookie_request (js "session"))
    with (@Threw (option jsstring) URIError) by (vm_compute; reflexivity).
  reflexivity.
Qed.





Lemma fetch_is_json AI request s :
  exists v, (ChatRoom.fetch AI request s).1
            = Response_json v (status (ChatRoom.fetch AI request s).1).
Proof. fetch_cases; eexists; reflexivity. Qed.


Lemma trimmed_field_throws v key e :
  trimmed_field v key = Threw e -> e = TypeError.
Proof.
  unfold trimmed_field, coerced_field.
  destruct (toString _) eqn:Hs; [done|].
  intros [= <-]. by eapply toString_throws_TypeError.
Qed.




(** ** URI component coding *)

#[local] Ltac Zify.zify_post_hook ::= Z.to_euclidean_division_equations.

(** Decide the comparisons of the goal by linear arithmetic. *)
Ltac nbool :=
  repeat match goal with
    | |- context [?a <? ?b] =>
        first [ rewrite (proj2 (N.ltb_lt a b)) by lia
              | rewrite (proj2 (N.ltb_ge a b)) by lia ]
    | |- context [?a <=? ?b] =>
        first [ rewrite (proj2 (N.leb_le a b)) by lia
              | rewrite (proj2 (N.leb_gt a b)) by lia ]
    | |- context [?a =? ?b] =>
        first [ rewrite (proj2 (N.eqb_eq a b)) by lia
              | rewrite (proj2 (N.eqb_neq a b)) by lia ]
    end;
  cbn [andb orb negb].

Lemma hex_value_digit (d : N) : d < 16 -> hex_value (hex_digit d) = Some d.
Proof.
  intros Hd. unfold hex_digit, hex_value.
  destruct (N.ltb_spec d 10); nbool; f_equal; lia.
Qed.

Lemma prepend_prepend {A} (a b : list A) (o : Outcome (list A)) :
  prepend a (prepend b o) = prepend (a ++ b) o.
Proof. destruct o; cbn; [by rewrite (assoc_L (++))|done]. Qed.

Lemma uri_tokens_escape (b : N) (t : jsstring) :
  b < 256 ->
  uri_tokens (percent_escape b ++ t) = prepend [Octet b] (uri_tokens t).
Proof.
  intros Hb. unfold percent_escape. cbn [app uri_tokens].
  rewrite N.eqb_refl, !hex_value_digit by lia.
  do 3 f_equal. lia.
Qed.

Lemma uri_tokens_escapes (bs : list N) (t : jsstring) :
  Forall (fun b => b < 256) bs ->
  uri_tokens (percent_escapes bs ++ t) = prepend (map Octet bs) (uri_tokens t).
Proof.
  induction 1 as [|b bs Hb _ IH]; cbn [percent_escapes map concat app].
  - by destruct (uri_tokens t).
  - fold (percent_escapes bs). rewrite <- (assoc_L (++)).
    rewrite uri_tokens_escape, IH, prepend_prepend by done. done.
Qed.

Lemma uri_tokens_plain (c : N) (t : jsstring) :
  c <> 37 -> uri_tokens (c :: t) = prepend [Plain c] (uri_tokens t).
Proof. intros Hc. cbn [uri_tokens]. by nbool. Qed.

Lemma utf8_encode_octets (cp : N) :
  is_scalar cp -> Forall (fun b => b < 256) (utf8_encode cp).
Proof.
  intros Hcp. unfold utf8_encode, is_scalar in *.
  destruct (N.ltb_spec cp 128); [repeat constructor; lia|].
  destruct (N.ltb_spec cp 2048); [repeat constructor; lia|].
  destruct (N.ltb_spec cp 65536); repeat constructor; lia.
Qed.

Lemma utf16_of_tokens_utf8 (cp : N) (ts : list UriToken) :
  is_scalar cp ->
  utf16_of_tokens (map Octet (utf8_encode cp) ++ ts)
  = prepend (utf16_encode cp) (utf16_of_tokens ts).
Proof.
  intros Hcp. unfold utf8_encode, is_scalar in *.
  destruct (N.ltb_spec cp 128) as [H1|H1].
  { cbn [map app utf16_of_tokens]. unfold utf16_encode. by nbool. }
  destruct (N.ltb_spec cp 2048) as [H2|H2].
  { cbn [map app utf16_of_tokens]. nbool.
    unfold utf8_decode2, is_continuation. nbool. cbn [decoded].
    unfold utf16_encode. nbool. do 2 f_equal. lia. }
  destruct (N.ltb_spec cp 65536) as [H3|H3].
  { cbn [map app utf16_of_tokens]. nbool.
    unfold utf8_decode3, is_continuation. nbool.
    replace ((224 + cp / 4096 - 224) * 4096 + (128 + (cp / 64) mod 64 - 128) * 64
             + (128 + cp mod 64 - 128)) with cp by lia.
    destruct Hcp; nbool; cbn [decoded]; unfold utf16_encode; by nbool. }
  cbn [map app utf16_of_tokens]. nbool.
  unfold utf8_decode4, is_continuation. nbool.
  replace ((240 + cp / 262144 - 240) * 262144 + (128 + (cp / 4096) mod 64 - 128) * 4096
           + (128 + (cp / 64) mod 64 - 128) * 64 + (128 + cp mod 64 - 128))
    with cp by lia.
  nbool. cbn [decoded]. done.
Qed.

Ltac bool_hyp H :=
  repeat first
    [ rewrite orb_true_iff in H | rewrite andb_true_iff in H
    | rewrite orb_false_iff in H | rewrite andb_false_iff in H
    | rewrite negb_true_iff in H | rewrite negb_false_iff in H
    | rewrite N.leb_le in H | rewrite N.leb_gt in H
    | rewrite N.ltb_lt in H | rewrite N.ltb_ge in H
    | rewrite N.eqb_eq in H | rewrite N.eqb_neq in H ].

Lemma unreserved_range (c : N) :
  is_uri_unreserved c = true -> 33 <= c <= 126 /\ c <> 37 /\ c <> 59 /\ c <> 61.
Proof. unfold is_uri_unreserved. intros H. bool_hyp H. lia. Qed.

Lemma uri_safe_range (c : N) :
  uri_safe c -> 33 <= c <= 126 /\ c <> 59 /\ c <> 61.
Proof.
  intros [H| ->]; [|lia]. apply unreserved_range in H. lia.
Qed.

Lemma hex_digit_unreserved (d : N) : d < 16 -> is_uri_unreserved (hex_digit d) = true.
Proof.
  intros Hd. unfold hex_digit, is_uri_unreserved.
  destruct (N.ltb_spec d 10); nbool.
  - reflexivity.
  - reflexivity.
Qed.

Lemma percent_escapes_safe (bs : list N) :
  Forall (fun b => b < 256) bs -> Forall uri_safe (percent_escapes bs).
Proof.
  induction 1 as [|b bs Hb _ IH]; cbn [percent_escapes map concat]; [constructor|].
  unfold percent_escape at 1. cbn [app].
  repeat (apply Forall_cons; split); [by right| | | exact IH];
    left; apply hex_digit_unreserved; lia.
Qed.

Lemma encode_decode_tokens (n : nat) :
  forall s : jsstring,
    (length s <= n)%nat -> well_formed s = true ->
    exists e ts,
      encodeURIComponent s = Returned e /\ Forall uri_safe e /\
      uri_tokens e = Returned ts /\ utf16_of_tokens ts = Returned s.
Proof.
  induction n as [|n IH]; intros [|c rest] Hlen Hwf; cbn [length] in Hlen;
    try lia; try (exists [], []; repeat split; constructor).
  cbn [encodeURIComponent well_formed] in *.
  destruct (is_uri_unreserved c) eqn:Hu.
  { pose proof (unreserved_range c Hu) as Hc.
    assert (Hh : is_high_surrogate c = false)
      by (unfold is_high_surrogate; nbool; reflexivity).
    rewrite Hh in Hwf. bool_hyp Hwf. destruct Hwf as [_ Hwf].
    destruct (IH rest ltac:(lia) Hwf) as (e & ts & He & Hsafe & Ht & Hd).
    exists (c :: e), (Plain c :: ts). rewrite He. cbn [prepend app].
    split; [done|]. split; [constructor; [by left|done]|].
    rewrite uri_tokens_plain, Ht by lia. cbn [prepend app utf16_of_tokens].
    by rewrite Hd. }
  destruct (is_high_surrogate c) eqn:Hh.
  - destruct rest as [|d rest']; [done|]. bool_hyp Hwf. destruct Hwf as [Hl Hwf].
    assert (Hlc : is_low_surrogate c = false).
    { unfold is_high_surrogate, is_low_surrogate in *. bool_hyp Hh. nbool. reflexivity. }
    rewrite Hlc, Hl. cbn [length] in Hlen.
    destruct (IH rest' ltac:(lia) Hwf) as (e & ts & He & Hsafe & Ht & Hd).
    unfold is_high_surrogate, is_low_surrogate in Hh, Hl. bool_hyp Hh. bool_hyp Hl.
    assert (Hcp : is_scalar (code_point_of_pair c d))
      by (unfold is_scalar, code_point_of_pair; lia).
    eexists _, _. rewrite He. cbn [prepend].
    split; [reflexivity|].
    split; [apply Forall_app; split; [|done];
            apply percent_escapes_safe, utf8_encode_octets, Hcp|].
    rewrite uri_tokens_escapes, Ht by apply utf8_encode_octets, Hcp.
    cbn [prepend]. split; [reflexivity|].
    rewrite utf16_of_tokens_utf8, Hd by done. cbn [prepend].
    unfold utf16_encode, code_point_of_pair. nbool. cbn [app].
    f_equal. f_equal; [lia|]. f_equal. lia.
  - bool_hyp Hwf. destruct Hwf as [[Hc Hl] Hwf]. rewrite Hl.
    destruct (IH rest ltac:(lia) Hwf) as (e & ts & He & Hsafe & Ht & Hd).
    unfold is_high_surrogate, is_low_surrogate in Hh, Hl. bool_hyp Hh. bool_hyp Hl.
    assert (Hcp : is_scalar c) by (unfold is_scalar; lia).
    eexists _, _. rewrite He. cbn [prepend].
    split; [reflexivity|].
    split; [apply Forall_app; split; [|done];
            apply percent_escapes_safe, utf8_encode_octets, Hcp|].
    rewrite uri_tokens_escapes, Ht by apply utf8_encode_octets, Hcp.
    cbn [prepend]. split; [reflexivity|].
    rewrite utf16_of_tokens_utf8, Hd by done. cbn [prepend].
    unfold utf16_encode. by nbool.
Qed.

(** [decodeURIComponent] inverts [encodeURIComponent], which succeeds on
    every string without unpaired surrogates. *)
Lemma decode_encode (s : jsstring) :
  well_formed s = true ->
  exists e,
    encodeURIComponent s = Returned e /\ Forall uri_safe e /\
    decodeURIComponent e = Returned s.
Proof.
  intros Hwf.
  destruct (encode_decode_tokens (length s) s (le_n _) Hwf)
    as (e & ts & He & Hsafe & Ht & Hd).
  exists e. unfold decodeURIComponent. by rewrite Ht.
Qed.

(** [encodeURIComponent] throws on an unpaired surrogate. *)
Lemma encode_returns_well_formed (n : nat) :
  forall (s e : jsstring),
    (length s <= n)%nat -> Forall (fun u => u < 65536) s ->
    encodeURIComponent s = Returned e -> well_formed s = true.
Proof.
  induction n as [|n IH]; intros [|c rest] e Hlen Hs; cbn [length] in Hlen;
    try lia; try done.
  apply Forall_cons in Hs as [Hc Hs].
  cbn [encodeURIComponent well_formed].
  destruct (is_uri_unreserved c) eqn:Hu.
  { pose proof (unreserved_range c Hu) as Hr.
    unfold is_high_surrogate, is_low_surrogate. nbool.
    destruct (encodeURIComponent rest) as [e'|] eqn:He; [|done].
    intros _. eapply IH; [|done|exact He]. lia. }
  destruct (is_low_surrogate c) eqn:Hl; [done|].
  destruct (is_high_surrogate c) eqn:Hh.
  - destruct rest as [|d rest']; [done|].
    destruct (is_low_surrogate d) eqn:Hld; [|done].
    apply Forall_cons in Hs as [_ Hs]. cbn [length] in Hlen.
    destruct (encodeURIComponent rest') as [e'|] eqn:He; [|done].
    intros _. cbn [andb]. eapply IH; [|done|exact He]. lia.
  - destruct (encodeURIComponent rest) as [e'|] eqn:He; [|done].
    intros _. nbool. eapply IH; [|done|exact He]. lia.
Qed.

(** ** Cookies *)

Lemma split_without (sep : N) (s : jsstring) :
  Forall (fun c => c <> sep) s -> split sep s = [s].
Proof.
  induction 1 as [|c s Hc _ IH]; [done|].
  cbn [split]. rewrite (proj2 (N.eqb_neq c sep)) by done. by rewrite IH.
Qed.

Lemma split_at_first (sep : N) (k v : jsstring) :
  Forall (fun c => c <> sep) k -> split sep (k ++ sep :: v) = k :: split sep v.
Proof.
  induction 1 as [|c k Hc _ IH]; cbn [app split].
  - by rewrite N.eqb_refl.
  - rewrite (proj2 (N.eqb_neq c sep)) by done. by rewrite IH.
Qed.

Lemma split_nonempty (sep : N) (s : jsstring) : split sep s <> [].
Proof.
  induction s as [|c s IH]; [done|]. cbn [split].
  destruct (c =? sep); [done|]. by destruct (split sep s).
Qed.

(** Rejoining the pieces of a split gives the string back. *)
Lemma join_cons (sep p q : jsstring) (ps : list jsstring) :
  join sep (p :: q :: ps) = p ++ sep ++ join sep (q :: ps).
Proof. reflexivity. Qed.

(** Rejoining the pieces of a split gives the string back. *)
Lemma join_split (sep : N) (s : jsstring) : join [sep] (split sep s) = s.
Proof.
  induction s as [|c s IH]; [done|]. cbn [split].
  pose proof (split_nonempty sep s) as Hs.
  destruct (split sep s) as [|p ps] eqn:Hsp; [done|].
  destruct (N.eqb_spec c sep) as [->|Hne].
  - rewrite join_cons, IH. done.
  - destruct ps as [|q qs].
    + cbn [join] in *. by rewrite IH.
    + rewrite join_cons in *. by rewrite <- IH.
Qed.

Lemma find_cookie_first (parts before after : list jsstring)
    (part name value : jsstring) :
  parts = before ++ part :: after ->
  Forall (fun p => cookie_name p <> name) before ->
  Forall (fun c => c <> 61) name ->
  trim part = name ++ 61 :: value ->
  Worker.find_cookie parts name
  = match decodeURIComponent value with
    | Returned v => Returned (Some v)
    | Threw e => Threw e
    end.
Proof.
  intros -> Hbefore Hname Hpart.
  induction Hbefore as [|p before Hp _ IH]; cbn [app Worker.find_cookie].
  - rewrite Hpart, split_at_first by done.
    rewrite bool_decide_eq_true_2 by done.
    change (js "=") with [61]. by rewrite join_split.
  - unfold cookie_name in Hp.
    destruct (split 61 (trim p)) as [|k v]; [exact IH|].
    cbn in Hp. by rewrite bool_decide_eq_false_2.
Qed.

Lemma getCookie_first request header before part after name value :
  Worker.cookie_header request = Some header ->
  split 59 header = before ++ part :: after ->
  Forall (fun p => cookie_name p <> name) before ->
  Forall (fun c => c <> 61) name ->
  trim part = name ++ 61 :: value ->
  Worker.getCookie request name
  = match decodeURIComponent value with
    | Returned v => Returned (Some v)
    | Threw e => Threw e
    end.
Proof.
  intros Hh Hsplit Hbefore Hname Hpart. unfold Worker.getCookie. rewrite Hh.
  destruct header as [|c header].
  { cbn in Hsplit. destruct before as [|? [|]]; simplify_eq/=.
    by destruct name. }
  cbn [truthy]. by eapply find_cookie_first.
Qed.

Lemma trimStart_clean_all (s : jsstring) :
  Forall (fun u => is_white_space u = false) s -> trimStart s = s.
Proof. destruct 1; [done|]. by apply trimStart_fixed. Qed.

Lemma trim_clean (s : jsstring) :
  Forall (fun u => is_white_space u = false) s -> trim s = s.
Proof.
  intros Hs. unfold trim, trimEnd. rewrite (trimStart_clean_all s) by done.
  rewrite trimStart_clean_all by by apply Forall_reverse.
  apply reverse_involutive.
Qed.

Lemma makeSessionCookie_pair sessionId secure e :
  encodeURIComponent sessionId = Returned e ->
  Forall uri_safe e ->
  exists c, Worker.makeSessionCookie sessionId secure = Returned c /\
            cookie_pair c = js "session=" ++ e.
Proof.
  intros He Hsafe. unfold Worker.makeSessionCookie. rewrite He.
  eexists. split; [reflexivity|].
  unfold cookie_pair.
  change (js "; Path=/; HttpOnly; SameSite=Lax; Max-Age=2592000")
    with (59 :: js " Path=/; HttpOnly; SameSite=Lax; Max-Age=2592000").
  cbn [app]. rewrite (assoc_L (++) (js "session=") e).
  rewrite split_at_first; [done|].
  apply Forall_app. split.
  - vm_compute. repeat (constructor; [discriminate|]). constructor.
  - eapply Forall_impl; [exact Hsafe|]. intros c Hc.
    apply uri_safe_range in Hc. lia.
Qed.

(** C10 (amended). Let [c] be the cookie [makeSessionCookie(s, secure)]
    produces for a string [s] of 16-bit code units.  On a request whose
    [Cookie] header has the name/value pair of [c] as its first [session]
    pair, [getCookie] returns exactly [s]: the value is
    [encodeURIComponent(s)], which [decodeURIComponent] inverts.  A value
    that contains [=] is put back together before it is decoded. *)
Theorem session_cookie_roundtrip s secure c request header before part after :
  Forall (fun u => u < 65536) s ->
  Worker.makeSessionCookie s secure = Returned c ->
  Worker.cookie_header request = Some header ->
  split 59 header = before ++ part :: after ->
  Forall (fun p => cookie_name p <> js "session") before ->
  trim part = cookie_pair c ->
  Worker.getCookie request (js "session") = Returned (Some s) /\
  (exists e, encodeURIComponent s = Returned e /\
             cookie_pair c = js "session=" ++ e /\
             decodeURIComponent e = Returned s) /\
  (forall request' value,
     Worker.cookie_header request' = Some (js "session=" ++ value) ->
     Forall (fun u => u <> 59 /\ is_white_space u = false) value ->
     Worker.getCookie request' (js "session")
     = match decodeURIComponent value with
       | Returned v => Returned (Some v)
       | Threw e => Threw e
       end).
Proof.
  intros Hs Hmk Hh Hsplit Hbefore Hpart.
  assert (Hname : Forall (fun u => u <> 61) (js "session")).
  { vm_compute. repeat (constructor; [discriminate|]). constructor. }
  assert (Hwf : well_formed s = true).
  { unfold Worker.makeSessionCookie in Hmk.
    destruct (encodeURIComponent s) as [e|] eqn:He; [|done].
    by eapply (encode_returns_well_formed (length s)). }
  destruct (decode_encode s Hwf) as (e & He & Hsafe & Hdec).
  destruct (makeSessionCookie_pair s secure e He Hsafe) as (c' & Hmk' & Hpair).
  rewrite Hmk in Hmk'. injection Hmk' as <-.
  split; [|split].
  - rewrite (getCookie_first request header before part after (js "session") e);
      try done.
    + by rewrite Hdec.
    + by rewrite Hpart, Hpair.
  - by exists e.
  - intros request' value Hh' Hvalue.
    apply (getCookie_first request' (js "session=" ++ value) [] (js "session=" ++ value) []);
      try done.
    + apply split_without. apply Forall_app. split.
      * vm_compute. repeat (constructor; [discriminate|]). constructor.
      * eapply Forall_impl; [exact Hvalue|]. by intros u [? _].
    + rewrite trim_clean; [done|]. apply Forall_app. split.
      * vm_compute. repeat (constructor; [reflexivity|]). constructor.
      * eapply Forall_impl; [exact Hvalue|]. by intros u [_ ?].
Qed.

Lemma session_cookie_roundtrip_witness :
  let s := js "a=b c" in
  let c := js "session=a%3Db%20c; Path=/; HttpOnly; SameSite=Lax; Max-Age=2592000; Secure" in
  let header := js "theme=dark; session=a%3Db%20c; lang=en" in
  Forall (fun u => u < 65536) s /\
  Worker.makeSessionCookie s true = Returned c /\
  split 59 header = [js "theme=dark"] ++ js " session=a%3Db%20c" :: [js " lang=en"] /\
  Forall (fun p => cookie_name p <> js "session") [js "theme=dark"] /\
  trim (js " session=a%3Db%20c") = cookie_pair c /\
  Worker.getCookie (request_with_cookie header) (js "session") = Returned (Some s).
Proof.
  intros s c header.
  assert (Hs : Forall (fun u => u < 65536) s).
  { vm_compute. repeat (constructor; [reflexivity|]). constructor. }
  assert (Hbefore : Forall (fun p => cookie_name p <> js "session") [js "theme=dark"]).
  { constructor; [|constructor]. vm_compute. discriminate. }
  split; [exact Hs|]. split; [reflexivity|]. split; [reflexivity|].
  split; [exact Hbefore|]. split; [reflexivity|].
  apply (session_cookie_roundtrip s true c (request_with_cookie header) header
           [js "theme=dark"] (js " session=a%3Db%20c") [js " lang=en"]
           Hs eq_refl eq_refl eq_refl Hbefore eq_refl).
Defined.

(** C10, as stated, at [s] the string [b] and the header
    [Cookie: session=a; session=b]: the header contains the pair that
    [makeSessionCookie] produces for [b], and [getCookie] returns [a]. *)
Lemma first_session_pair_wins :
  let header := js "session=a; session=b" in
  Worker.makeSessionCookie (js "b") false
  = Returned (js "session=b; Path=/; HttpOnly; SameSite=Lax; Max-Age=2592000") /\
  cookie_pair (js "session=b; Path=/; HttpOnly; SameSite=Lax; Max-Age=2592000")
  = js "session=b" /\
  map trim (split 59 header) = [js "session=a"; js "session=b"] /\
  Worker.getCookie (request_with_cookie header) (js "session")
  = Returned (Some (js "a")) /\
  js "a" <> js "b".
Proof. vm_compute. repeat split. discriminate. Qed.

(** * Further properties *)

(** ** The ChatRoom, request by request *)

Lemma trimStart_app (a b : jsstring) :
  trimStart a <> [] -> trimStart (a ++ b) = trimStart a ++ b.
Proof.
  induction a as [|c a IH]; [done|]. cbn [app trimStart].
  destruct (is_white_space c); [exact IH|done].
Qed.

Lemma trimEnd_app (p m : jsstring) :
  trimEnd m <> [] -> trimEnd (p ++ m) = p ++ trimEnd m.
Proof.
  unfold trimEnd. intros Hm. rewrite reverse_app, trimStart_app.
  - by rewrite reverse_app, reverse_involutive.
  - intros Heq. apply Hm. by rewrite Heq.
Qed.

Lemma trim_trimEnd (m : jsstring) : trim m = m -> trimEnd m = m.
Proof. intros Hm. rewrite <- Hm at 1. unfold trim. by rewrite trimEnd_idem. Qed.

(** A prefix that starts with a visible character stays in place. *)
Lemma trim_prefixed (c : N) (p m : jsstring) :
  is_white_space c = false -> m <> [] -> trim m = m ->
  trim ((c :: p) ++ m) = (c :: p) ++ m.
Proof.
  intros Hc Hne Hm. unfold trim. cbn [app]. rewrite trimStart_fixed by done.
  change (c :: p ++ m) with ((c :: p) ++ m).
  rewrite trimEnd_app; rewrite (trim_trimEnd m Hm); done.
Qed.

Lemma dev_reply_trimmed (m : jsstring) :
  m <> [] -> trim m = m ->
  DEV_PREFIX ++ m <> [] /\ trim (DEV_PREFIX ++ m) = DEV_PREFIX ++ m.
Proof.
  intros Hne Hm. split; [done|].
  change DEV_PREFIX with (68 :: js "EV MODE (no Workers AI). You said: ").
  by apply trim_prefixed.
Qed.

(** What one request does to the stored history: nothing, or one exchange
    of trimmed, non-empty entries. *)
Lemma fetch_step AI request s :
  let response := (ChatRoom.fetch AI request s).1 in
  let s' := (ChatRoom.fetch AI request s).2 in
  (status response <> 200%Z /\ ChatRoom.storage s' = ChatRoom.storage s /\
   exchange_of request response = []) \/
  (exists message reply,
     status response = 200%Z /\
     exchange_of request response = [user_says message; assistant_says reply] /\
     trimmed_content (user_says message) /\
     trimmed_content (assistant_says reply) /\
     stored_history s'
     = shift_excess (shift_excess (stored_history s ++ [user_says message])
                     ++ [assistant_says reply])).
Proof.
  cbv zeta.
  destruct (decide (ChatRoom.method request = js "POST")) as [Hm|Hm].
  2: { rewrite fetch_not_post by done. by left. }
  destruct (ChatRoom.json request) as [sent|] eqn:Hj.
  2: { rewrite fetch_invalid_json by done. by left. }
  destruct (trimmed_field sent (js "message")) as [[|c m]|e] eqn:Hc.
  { rewrite (fetch_blank_message AI request sent s) by done. by left. }
  2: { rewrite (fetch_uncoercible_message AI request sent e s) by done. by left. }
  pose proof (trimmed_field_trimmed _ _ _ Hc) as Htrim.
  assert (Huser : trimmed_content (user_says (c :: m))) by done.
  rewrite (fetch_valid AI request sent (c :: m) s) by done. cbv zeta.
  destruct AI as [run|].
  - destruct (run _) as [aiResult|err] eqn:Hr; [|by left].
    destruct (trimmed_field aiResult _) as [[|d reply]|e] eqn:Hreply;
      [by left| |by left].
    cbn [truthy fst snd]. right. exists (c :: m), (d :: reply).
    split; [done|]. split.
    { unfold exchange_of. cbn [status Response_json body Z.eqb Pos.eqb].
      rewrite Hj, Hc. reflexivity. }
    split; [done|]. split.
    { split; [done|]. by eapply trimmed_field_trimmed. }
    by rewrite stored_history_after_put.
  - cbn [fst snd]. right. exists (c :: m), (DEV_PREFIX ++ c :: m).
    split; [done|]. split.
    { unfold exchange_of. cbn [status Response_json body Z.eqb Pos.eqb].
      rewrite Hj, Hc. reflexivity. }
    split; [done|]. split; [by apply dev_reply_trimmed|].
    by rewrite stored_history_after_put.
Qed.



Lemma shift_excess_short (h : History) :
  (length h <= MAX_HISTORY)%nat -> shift_excess h = h.
Proof.
  intros Hle. rewrite shift_excess_drop.
  replace (length h - MAX_HISTORY)%nat with 0%nat by lia. done.
Qed.

Lemma stored_history_storage s t :
  ChatRoom.storage s = ChatRoom.storage t -> stored_history s = stored_history t.
Proof. unfold stored_history. by intros ->. Qed.

Lemma exchanges_app (h l : History) :
  exchanges h -> exchanges l -> exchanges (h ++ l).
Proof.
  revert h. fix IH 1. intros [|u [|a rest]] Hh Hl; cbn in *; try done.
  destruct Hh as (Hu & Ha & Hrest). split; [done|]. split; [done|].
  by apply IH.
Qed.

Lemma exchanges_even (h : History) : exchanges h -> Nat.Even (length h).
Proof.
  revert h. fix IH 1. intros [|u [|a rest]] Hh; cbn in *; try done.
  - by exists 0%nat.
  - destruct Hh as (_ & _ & Hrest). destruct (IH rest Hrest) as [k Hk].
    exists (S k). lia.
Qed.

(** Cutting a history of whole exchanges, one exchange longer, to
    [MAX_HISTORY] entries leaves whole exchanges. *)
Lemma exchanges_exchange (h : History) (m r : jsstring) :
  exchanges h -> (length h <= MAX_HISTORY)%nat ->
  exchanges (shift_excess (shift_excess (h ++ [user_says m]) ++ [assistant_says r])).
Proof.
  intros Hh Hlen. rewrite shift_excess_exchange. unfold MAX_HISTORY in *.
  destruct (exchanges_even h Hh) as [k Hk].
  destruct (decide (length h = 20)%nat) as [H20|Hlt].
  - replace (length h + 2 - 20)%nat with 2%nat by lia.
    destruct h as [|u [|a rest]]; cbn in Hh, H20; try done.
    destruct Hh as (_ & _ & Hrest). cbn [app drop].
    apply exchanges_app; [done|]. by cbn.
  - replace (length h + 2 - 20)%nat with 0%nat by lia. rewrite drop_0.
    apply exchanges_app; [done|]. by cbn.
Qed.

(** X5. Starting from an empty store, after any requests whatever, the
    stored history is made of whole exchanges, a user entry followed by an
    assistant entry; it has an even length of at most [MAX_HISTORY], and
    every content is non-empty and trimmed. *)
Theorem served_history_whole_exchanges requests :
  let h := stored_history (serve requests ChatRoom.fresh) in
  exchanges h /\ (length h <= MAX_HISTORY)%nat /\ Nat.Even (length h) /\
  Forall trimmed_content h.
Proof.
  cbv zeta.
  assert (Hgen : forall s,
            exchanges (stored_history s) /\
            (length (stored_history s) <= MAX_HISTORY)%nat /\
            Forall trimmed_content (stored_history s) ->
            exchanges (stored_history (serve requests s)) /\
            (length (stored_history (serve requests s)) <= MAX_HISTORY)%nat /\
            Forall trimmed_content (stored_history (serve requests s))).
  { induction requests as [|[AI request] rest IH]; intros s Hinv; [done|].
    cbn [serve]. apply IH. destruct Hinv as (Hex & Hlen & Hcontent).
    destruct (fetch_step AI request s)
      as [(_ & Hsame & _)|(m & r & _ & _ & Hm & Hr & ->)].
    - by rewrite (stored_history_storage _ s Hsame).
    - split; [by apply exchanges_exchange|]. split; [apply shift_excess_length|].
      apply shift_excess_Forall, Forall_app. split; [|by apply Forall_singleton].
      apply shift_excess_Forall, Forall_app. split; [done|].
      by apply Forall_singleton. }
  destruct (Hgen ChatRoom.fresh) as (Hex & Hlen & Hcontent).
  { change (stored_history ChatRoom.fresh) with ([] : History).
    split; [done|]. split; [cbn; lia|constructor]. }
  split; [done|]. split; [done|]. split; [by apply exchanges_even|done].
Qed.

Lemma fetch_length_bound AI request s :
  (length (stored_history s) <= MAX_HISTORY)%nat ->
  (length (stored_history (ChatRoom.fetch AI request s).2) <= MAX_HISTORY)%nat.
Proof.
  intros Hlen.
  destruct (fetch_step AI request s)
    as [(_ & Hsame & _)|(m & r & _ & _ & _ & _ & ->)].
  - by rewrite (stored_history_storage _ s Hsame).
  - apply shift_excess_length.
Qed.

(** X6. Served from a history within bounds, a sequence of requests leaves
    the last [MAX_HISTORY] entries of that history followed by the exchanges
    of the requests that were answered 200, in order; the others contribute
    nothing. *)
Theorem history_is_window_of_transcript requests s :
  (length (stored_history s) <= MAX_HISTORY)%nat ->
  stored_history (serve requests s)
  = drop (length (stored_history s ++ transcript requests s) - MAX_HISTORY)
      (stored_history s ++ transcript requests s).
Proof.
  rewrite <- shift_excess_drop.
  revert s. induction requests as [|[AI request] rest IH]; intros s Hlen.
  - cbn [serve transcript]. rewrite app_nil_r. by rewrite shift_excess_short.
  - cbn [serve transcript].
    rewrite IH by by apply fetch_length_bound.
    destruct (fetch_step AI request s)
      as [(_ & Hsame & ->)|(m & r & _ & -> & _ & _ & ->)].
    + by rewrite (stored_history_storage _ s Hsame).
    + rewrite shift_excess_push. rewrite <- (assoc_L (++) _ [user_says m]).
      cbn [app]. rewrite shift_excess_app. by rewrite <- (assoc_L (++)).
Qed.

Lemma history_is_window_of_transcript_witness :
  let s := room_holding (replicate 18 (user_says (js "old"))) in
  let requests :=
    [(None, post (message_body (js "one")));
     (Some overloaded, post (message_body (js "two")));
     (Some padded_pong, post (message_body (js "three")))] in
  (length (stored_history s) <= MAX_HISTORY)%nat /\
  transcript requests s
  = [user_says (js "one"); assistant_says (DEV_PREFIX ++ js "one");
     user_says (js "three"); assistant_says (js "pong")] /\
  stored_history (serve requests s)
  = drop (length (stored_history s ++ transcript requests s) - MAX_HISTORY)
      (stored_history s ++ transcript requests s).
Proof.
  intros s requests.
  assert (Hlen : (length (stored_history s) <= MAX_HISTORY)%nat).
  { vm_compute. lia. }
  split; [exact Hlen|]. split; [reflexivity|].
  exact (history_is_window_of_transcript requests s Hlen).
Defined.

Lemma shift_excess_snoc (h : History) (m : ChatMessage) :
  exists kept, shift_excess (h ++ [m]) = kept ++ [m] /\ kept `suffix_of` h.
Proof.
  rewrite shift_excess_drop, length_app. cbn [length]. unfold MAX_HISTORY.
  exists (drop (length h + 1 - 20) h). split; [|apply suffix_drop].
  by rewrite drop_app_le by lia.
Qed.

(** X2. Whenever the ChatRoom calls the inference binding, the messages are
    the system prompt, then a suffix of the stored history, then the trimmed
    message of the request as a user entry: at most [MAX_HISTORY + 1]
    messages, with the model, the token limit and the temperature of the
    source. *)
Theorem inference_input_shape AI request s input :
  ChatRoom.AiRun input
  ∈ drop (length (ChatRoom.trace s)) (ChatRoom.trace (ChatRoom.fetch AI request s).2) ->
  exists sent message kept,
    ChatRoom.json request = Some sent /\
    trimmed_field sent (js "message") = Returned message /\
    message <> [] /\
    kept `suffix_of` stored_history s /\
    ChatRoom.ai_messages input = priming :: kept ++ [user_says message] /\
    (length (ChatRoom.ai_messages input) <= S MAX_HISTORY)%nat /\
    ChatRoom.ai_model input = MODEL /\
    ChatRoom.ai_max_tokens input = 256%Z /\
    ChatRoom.ai_temperature input = 6 # 10.
Proof.
  destruct (decide (ChatRoom.method request = js "POST")) as [Hm|Hm].
  2: { rewrite fetch_not_post by done. cbn [snd]. rewrite drop_all.
       intros Hin. by apply elem_of_nil in Hin. }
  destruct (ChatRoom.json request) as [sent|] eqn:Hj.
  2: { rewrite fetch_invalid_json by done. cbn [snd]. rewrite drop_all.
       intros Hin. by apply elem_of_nil in Hin. }
  destruct (trimmed_field sent (js "message")) as [[|c m]|e] eqn:Hc.
  { rewrite (fetch_blank_message AI request sent s) by done. cbn [snd].
    rewrite drop_all. intros Hin. by apply elem_of_nil in Hin. }
  2: { rewrite (fetch_uncoercible_message AI request sent e s) by done.
       cbn [snd]. rewrite drop_all. intros Hin. by apply elem_of_nil in Hin. }
  rewrite (fetch_valid AI request sent (c :: m) s) by done. cbv zeta.
  destruct (shift_excess_snoc (stored_history s) (user_says (c :: m)))
    as (kept & Hkept & Hsuffix).
  assert (Hlen : (length (shift_excess (stored_history s ++ [user_says (c :: m)]))
                  <= MAX_HISTORY)%nat) by apply shift_excess_length.
  intros Hin.
  assert (Hinput : input = inference_input
                     (priming :: shift_excess (stored_history s ++ [user_says (c :: m)]))).
  { destruct AI as [run|].
    - destruct (run _) as [aiResult|err]; [destruct (trimmed_field aiResult _) as [reply|e];
        [destruct (truthy reply)|]|];
        unfold after_put, ChatRoom.log in Hin; cbn [snd ChatRoom.trace] in Hin;
        rewrite <- ?(assoc_L (++)), drop_app_length in Hin;
        cbn [app] in Hin; in_cases Hin; done.
    - unfold after_put, ChatRoom.log in Hin; cbn [snd ChatRoom.trace] in Hin.
      rewrite <- ?(assoc_L (++)), drop_app_length in Hin.
      cbn [app] in Hin. in_cases Hin. }
  subst input. exists sent, (c :: m), kept.
  cbn [inference_input ChatRoom.ai_messages ChatRoom.ai_model
       ChatRoom.ai_max_tokens ChatRoom.ai_temperature].
  repeat split; try done.
  - by rewrite Hkept.
  - cbn [length]. lia.
Qed.

Lemma inference_input_shape_witness :
  let s := room_holding [user_says (js "hello"); assistant_says (js "hi there")] in
  let request := post (message_body (js " again ")) in
  let input :=
    inference_input [priming; user_says (js "hello"); assistant_says (js "hi there");
                     user_says (js "again")] in
  ChatRoom.AiRun input
  ∈ drop (length (ChatRoom.trace s))
      (ChatRoom.trace (ChatRoom.fetch (Some overloaded) request s).2) /\
  exists sent message kept,
    ChatRoom.json request = Some sent /\
    trimmed_field sent (js "message") = Returned message /\
    message <> [] /\
    kept `suffix_of` stored_history s /\
    ChatRoom.ai_messages input = priming :: kept ++ [user_says message] /\
    (length (ChatRoom.ai_messages input) <= S MAX_HISTORY)%nat /\
    ChatRoom.ai_model input = MODEL /\
    ChatRoom.ai_max_tokens input = 256%Z /\
    ChatRoom.ai_temperature input = 6 # 10.
Proof.
  intros s request input.
  assert (Hin : ChatRoom.AiRun input
                ∈ drop (length (ChatRoom.trace s))
                    (ChatRoom.trace (ChatRoom.fetch (Some overloaded) request s).2)).
  { apply list_elem_of_In. vm_compute. right. left. reflexivity. }
  split; [exact Hin|].
  exact (inference_input_shape (Some overloaded) request s input Hin).
Defined.

(** X3. When the inference binding returns a result whose reply is not
    blank, the ChatRoom answers 200 with the reply trimmed, and stores the
    trimmed message and the trimmed reply at the end of the history, cut to
    its last [MAX_HISTORY] entries. *)
Theorem inference_reply_stored run request sent raw s aiResult text :
  ChatRoom.method request = js "POST" ->
  ChatRoom.json request = Some sent ->
  coerced_field sent (js "message") = Returned raw ->
  trim raw <> [] ->
  run (inference_input
         (priming :: shift_excess (stored_history s ++ [user_says (trim raw)])))
  = Returned aiResult ->
  coerced_field aiResult (js "response") = Returned text ->
  trim text <> [] ->
  let response := (ChatRoom.fetch (Some run) request s).1 in
  let s' := (ChatRoom.fetch (Some run) request s).2 in
  status response = 200%Z /\
  body response = reply_body (trim text) /\
  stored_history s'
  = drop (length (stored_history s) + 2 - MAX_HISTORY)
      (stored_history s ++ [user_says (trim raw); assistant_says (trim text)]).
Proof.
  intros Hm Hj Hc Hne Hr Ht Hnt. cbv zeta.
  apply trimmed_field_coerced in Hc. apply trimmed_field_coerced in Ht.
  rewrite (fetch_valid (Some run) request sent (trim raw) s) by done. cbv zeta.
  rewrite Hr, Ht, (truthy_nonempty _ Hnt). cbn [fst snd].
  split; [done|]. split; [done|].
  rewrite stored_history_after_put. apply shift_excess_exchange.
Qed.

Lemma inference_reply_stored_witness :
  let s := room_holding [user_says (js "hello"); assistant_says (js "hi there")] in
  let request := post (message_body (js " ping ")) in
  let response := (ChatRoom.fetch (Some padded_pong) request s).1 in
  let s' := (ChatRoom.fetch (Some padded_pong) request s).2 in
  trim (js " ping ") = js "ping" /\ trim (js "  pong  ") = js "pong" /\
  status response = 200%Z /\
  body response = reply_body (trim (js "  pong  ")) /\
  stored_history s'
  = drop (length (stored_history s) + 2 - MAX_HISTORY)
      (stored_history s ++ [user_says (trim (js " ping "));
                            assistant_says (trim (js "  pong  "))]).
Proof.
  intros s request response s'.
  split; [reflexivity|]. split; [reflexivity|].
  apply (inference_reply_stored padded_pong request (message_body (js " ping "))
           (js " ping ") s (JObject [(js "response", JString (js "  pong  "))])
           (js "  pong  "));
    first [ reflexivity | vm_compute; discriminate ].
Defined.

Lemma fetch_storage_only AI request s t :
  ChatRoom.storage s = ChatRoom.storage t ->
  (ChatRoom.fetch AI request s).1 = (ChatRoom.fetch AI request t).1 /\
  ChatRoom.storage (ChatRoom.fetch AI request s).2
  = ChatRoom.storage (ChatRoom.fetch AI request t).2.
Proof.
  intros Hst. pose proof (stored_history_storage s t Hst) as Hh.
  destruct (decide (ChatRoom.method request = js "POST")) as [Hm|Hm].
  2: { by rewrite !fetch_not_post. }
  destruct (ChatRoom.json request) as [sent|] eqn:Hj.
  2: { by rewrite !fetch_invalid_json. }
  destruct (trimmed_field sent (js "message")) as [[|c m]|e] eqn:Hc.
  { by rewrite !(fetch_blank_message AI request sent). }
  2: { by rewrite !(fetch_uncoercible_message AI request sent e). }
  rewrite !(fetch_valid AI request sent (c :: m)) by done. cbv zeta.
  rewrite Hh. destruct AI as [run|].
  - destruct (run _) as [aiResult|err]; [|done].
    destruct (trimmed_field aiResult _) as [reply|e]; [|done].
    destruct (truthy reply); [|done].
    split; [done|]. unfold after_put, ChatRoom.log. cbn. by rewrite Hst.
  - split; [done|]. unfold after_put, ChatRoom.log. cbn. by rewrite Hst.
Qed.

(** X4. A request that is not answered 200 leaves no mark: the next request
    gets the response, and leaves the storage, it would have had without
    it.  The user message of a failed exchange is not remembered. *)
Theorem failed_request_leaves_no_mark AI1 request1 AI2 request2 s :
  status (ChatRoom.fetch AI1 request1 s).1 <> 200%Z ->
  let s1 := (ChatRoom.fetch AI1 request1 s).2 in
  (ChatRoom.fetch AI2 request2 s1).1 = (ChatRoom.fetch AI2 request2 s).1 /\
  ChatRoom.storage (ChatRoom.fetch AI2 request2 s1).2
  = ChatRoom.storage (ChatRoom.fetch AI2 request2 s).2.
Proof.
  intros Hfail. cbv zeta. apply fetch_storage_only.
  destruct (fetch_step AI1 request1 s) as [(_ & Hsame & _)|(m & r & H200 & _)];
    [done|]. by rewrite H200 in Hfail.
Qed.

Lemma failed_request_leaves_no_mark_witness :
  let s := room_holding [user_says (js "hello"); assistant_says (js "hi there")] in
  let failing := post (message_body (js "lost")) in
  let next := post (message_body (js "kept")) in
  let s1 := (ChatRoom.fetch (Some overloaded) failing s).2 in
  status (ChatRoom.fetch (Some overloaded) failing s).1 = 502%Z /\
  (ChatRoom.fetch None next s1).1 = (ChatRoom.fetch None next s).1 /\
  ChatRoom.storage (ChatRoom.fetch None next s1).2
  = ChatRoom.storage (ChatRoom.fetch None next s).2.
Proof.
  intros s failing next s1. split; [reflexivity|].
  apply (failed_request_leaves_no_mark (Some overloaded) failing None next s).
  vm_compute. discriminate.
Defined.

Lemma find_cookie_none (parts : list jsstring) (name : jsstring) :
  Forall (fun p => cookie_name p <> name) parts ->
  Worker.find_cookie parts name = Returned None.
Proof.
  induction 1 as [|p parts Hp _ IH]; [done|]. cbn [Worker.find_cookie].
  unfold cookie_name in Hp.
  destruct (split 61 (trim p)) as [|k v]; [exact IH|].
  cbn in Hp. by rewrite bool_decide_eq_false_2.
Qed.

(** X7. [getCookie] returns null when the request has no [Cookie] header,
    an empty one, or one in which no part carries the name.  No value is
    decoded on the way, so a malformed value of another cookie does not make
    it throw. *)
Theorem getCookie_without_name request name :
  (forall header,
     Worker.cookie_header request = Some header ->
     Forall (fun p => cookie_name p <> name) (split 59 header)) ->
  Worker.getCookie request name = Returned None.
Proof.
  intros Hparts. unfold Worker.getCookie.
  destruct (Worker.cookie_header request) as [header|]; [|done].
  destruct (truthy header); [|done]. by apply find_cookie_none, Hparts.
Qed.

Lemma getCookie_without_name_witness :
  let request := request_with_cookie (js "theme=%ZZ; lang=en%") in
  (forall header,
     Worker.cookie_header request = Some header ->
     Forall (fun p => cookie_name p <> js "session") (split 59 header)) /\
  Worker.getCookie request (js "session") = Returned None.
Proof.
  intros request.
  assert (H : forall header,
             Worker.cookie_header request = Some header ->
             Forall (fun p => cookie_name p <> js "session") (split 59 header)).
  { intros header [= <-]. vm_compute.
    repeat (constructor; [discriminate|]). constructor. }
  split; [exact H|]. exact (getCookie_without_name request (js "session") H).
Defined.

Lemma prepend_threw {A} (pre : list A) (o : Outcome (list A)) (e : Exn) :
  prepend pre o = Threw e -> o = Threw e.
Proof. by destruct o. Qed.

Lemma decoded_threw cp rest e :
  decoded cp rest = Threw e -> e = URIError \/ rest = Threw e.
Proof.
  destruct cp; cbn [decoded].
  - intros H. right. by eapply prepend_threw.
  - intros [= <-]. by left.
Qed.

Lemma uri_tokens_throws (n : nat) :
  forall (s : jsstring) (e : Exn),
    (length s <= n)%nat -> uri_tokens s = Threw e -> e = URIError.
Proof.
  induction n as [|n IH]; intros [|c rest] e Hlen; cbn [length] in Hlen;
    try lia; try done.
  cbn [uri_tokens]. destruct (c =? 37).
  - destruct rest as [|h [|l rest']]; try (by intros [= <-]).
    cbn [length] in Hlen.
    destruct (hex_value h), (hex_value l); try (by intros [= <-]).
    intros H%prepend_threw. eapply IH; [|exact H]. lia.
  - intros H%prepend_threw. eapply IH; [|exact H]. lia.
Qed.

Lemma utf16_of_tokens_throws (n : nat) :
  forall (ts : list UriToken) (e : Exn),
    (length ts <= n)%nat -> utf16_of_tokens ts = Threw e -> e = URIError.
Proof.
  induction n as [|n IH]; intros [|t rest] e Hlen; cbn [length] in Hlen;
    try lia; try done.
  cbn [utf16_of_tokens]. destruct t as [c|b0].
  { intros H%prepend_threw. eapply IH; [|exact H]. lia. }
  destruct (b0 <? 128).
  { intros H%prepend_threw. eapply IH; [|exact H]. lia. }
  destruct (b0 <? 192); [by intros [= <-]|].
  destruct (b0 <? 224).
  { destruct rest as [|[|b1] rest']; try (by intros [= <-]).
    cbn [length] in Hlen. intros [->|H]%decoded_threw; [done|].
    eapply IH; [|exact H]. lia. }
  destruct (b0 <? 240).
  { destruct rest as [|[|b1] [|[|b2] rest']]; try (by intros [= <-]).
    cbn [length] in Hlen. intros [->|H]%decoded_threw; [done|].
    eapply IH; [|exact H]. lia. }
  destruct (b0 <? 248); [|by intros [= <-]].
  destruct rest as [|[|b1] [|[|b2] [|[|b3] rest']]]; try (by intros [= <-]).
  cbn [length] in Hlen. intros [->|H]%decoded_threw; [done|].
  eapply IH; [|exact H]. lia.
Qed.

(** [decodeURIComponent] throws nothing but URIError. *)
Lemma decodeURIComponent_throws (s : jsstring) (e : Exn) :
  decodeURIComponent s = Threw e -> e = URIError.
Proof.
  unfold decodeURIComponent. destruct (uri_tokens s) as [ts|e'] eqn:Ht.
  - by apply (utf16_of_tokens_throws (length ts)).
  - intros [= <-]. by apply (uri_tokens_throws (length s) s).
Qed.

(** [encodeURIComponent] throws nothing but URIError. *)
Lemma encodeURIComponent_throws (n : nat) :
  forall (s : jsstring) (e : Exn),
    (length s <= n)%nat -> encodeURIComponent s = Threw e -> e = URIError.
Proof.
  induction n as [|n IH]; intros [|c rest] e Hlen; cbn [length] in Hlen;
    try lia; try done.
  cbn [encodeURIComponent]. destruct (is_uri_unreserved c).
  { intros H%prepend_threw. eapply IH; [|exact H]. lia. }
  destruct (is_low_surrogate c); [by intros [= <-]|].
  destruct (is_high_surrogate c).
  - destruct rest as [|d rest']; [by intros [= <-]|]. cbn [length] in Hlen.
    destruct (is_low_surrogate d); [|by intros [= <-]].
    intros H%prepend_threw. eapply IH; [|exact H]. lia.
  - intros H%prepend_threw. eapply IH; [|exact H]. lia.
Qed.

(** X8. [getCookie] answers from the first part that carries the name and
    reads no further: it returns that value decoded, with any [=] inside it
    kept, and throws a URIError when that value does not decode, even if a
    later part with the same name would. *)
Theorem getCookie_first_match request header before part after name value :
  Worker.cookie_header request = Some header ->
  split 59 header = before ++ part :: after ->
  Forall (fun p => cookie_name p <> name) before ->
  Forall (fun c => c <> 61) name ->
  trim part = name ++ 61 :: value ->
  Worker.getCookie request name
  = match decodeURIComponent value with
    | Returned v => Returned (Some v)
    | Threw _ => Threw URIError
    end.
Proof.
  intros Hh Hsplit Hbefore Hname Hpart.
  rewrite (getCookie_first request header before part after name value) by done.
  destruct (decodeURIComponent value) as [v|e] eqn:He; [done|].
  by rewrite (decodeURIComponent_throws _ _ He).
Qed.

Lemma getCookie_first_match_witness :
  let header := js "lang=en; session=%E0%A4%A; session=ok" in
  let request := request_with_cookie header in
  Worker.cookie_header request = Some header /\
  split 59 header = [js "lang=en"] ++ js " session=%E0%A4%A" :: [js " session=ok"] /\
  Forall (fun p => cookie_name p <> js "session") [js "lang=en"] /\
  Forall (fun c => c <> 61) (js "session") /\
  trim (js " session=%E0%A4%A") = js "session" ++ 61 :: js "%E0%A4%A" /\
  decodeURIComponent (js "%E0%A4%A") = Threw URIError /\
  Worker.getCookie request (js "session") = Threw URIError.
Proof.
  intros header request.
  assert (Hbefore : Forall (fun p => cookie_name p <> js "session") [js "lang=en"]).
  { constructor; [|constructor]. vm_compute. discriminate. }
  assert (Hname : Forall (fun c => c <> 61) (js "session")).
  { vm_compute. repeat (constructor; [discriminate|]). constructor. }
  split; [reflexivity|]. split; [reflexivity|]. split; [exact Hbefore|].
  split; [exact Hname|]. split; [reflexivity|]. split; [reflexivity|].
  exact (getCookie_first_match request header [js "lang=en"]
           (js " session=%E0%A4%A") [js " session=ok"] (js "session")
           (js "%E0%A4%A") eq_refl eq_refl Hbefore Hname eq_refl).
Defined.

Lemma uri_safe_visible (u : N) :
  uri_safe u -> u <> 59 /\ u <> 61 /\ is_white_space u = false.
Proof.
  intros Hu. apply uri_safe_range in Hu. split; [lia|]. split; [lia|].
  unfold is_white_space. by nbool.
Qed.

(** The encoding behind a minted cookie. *)
Lemma makeSessionCookie_encoded s secure c :
  Forall (fun u => u < 65536) s ->
  Worker.makeSessionCookie s secure = Returned c ->
  exists e,
    encodeURIComponent s = Returned e /\ Forall uri_safe e /\
    decodeURIComponent e = Returned s /\
    c = js "session=" ++ e
        ++ js "; Path=/; HttpOnly; SameSite=Lax; Max-Age=2592000"
        ++ (if secure then js "; Secure" else []).
Proof.
  intros Hs Hmk. unfold Worker.makeSessionCookie in Hmk.
  destruct (encodeURIComponent s) as [e|] eqn:He; [|done].
  injection Hmk as <-.
  pose proof (encode_returns_well_formed (length s) s e (le_n _) Hs He) as Hwf.
  destruct (decode_encode s Hwf) as (e' & He' & Hsafe & Hdec).
  rewrite He in He'. injection He' as <-. by exists e.
Qed.

(** X9. Whatever the session identifier, the cookie [makeSessionCookie]
    produces splits at its semicolons into the pair [session=<encoded id>]
    followed by exactly the attributes of the source; the encoded identifier
    holds no semicolon, no equals sign and no white space, so an identifier
    cannot add or alter an attribute. *)
Theorem makeSessionCookie_parts s secure c :
  Forall (fun u => u < 65536) s ->
  Worker.makeSessionCookie s secure = Returned c ->
  exists e,
    encodeURIComponent s = Returned e /\
    Forall (fun u => u <> 59 /\ u <> 61 /\ is_white_space u = false) e /\
    split 59 c = (js "session=" ++ e) :: cookie_attributes secure.
Proof.
  intros Hs Hmk.
  destruct (makeSessionCookie_encoded s secure c Hs Hmk)
    as (e & He & Hsafe & _ & ->).
  exists e. split; [done|].
  assert (Hvisible : Forall (fun u => u <> 59 /\ u <> 61 /\ is_white_space u = false) e).
  { eapply Forall_impl; [exact Hsafe|]. apply uri_safe_visible. }
  split; [done|].
  change (js "; Path=/; HttpOnly; SameSite=Lax; Max-Age=2592000")
    with (59 :: js " Path=/; HttpOnly; SameSite=Lax; Max-Age=2592000").
  cbn [app]. rewrite (assoc_L (++) (js "session=") e).
  rewrite split_at_first.
  - f_equal. destruct secure; vm_compute; reflexivity.
  - apply Forall_app. split.
    + vm_compute. repeat (constructor; [discriminate|]). constructor.
    + eapply Forall_impl; [exact Hvisible|]. by intros u [? _].
Qed.

Lemma makeSessionCookie_parts_witness :
  let s := js "a;b=c d" in
  let c := js "session=a%3Bb%3Dc%20d; Path=/; HttpOnly; SameSite=Lax; Max-Age=2592000; Secure" in
  Forall (fun u => u < 65536) s /\
  Worker.makeSessionCookie s true = Returned c /\
  exists e,
    encodeURIComponent s = Returned e /\
    Forall (fun u => u <> 59 /\ u <> 61 /\ is_white_space u = false) e /\
    split 59 c = (js "session=" ++ e) :: cookie_attributes true.
Proof.
  intros s c.
  assert (Hs : Forall (fun u => u < 65536) s).
  { vm_compute. repeat (constructor; [reflexivity|]). constructor. }
  split; [exact Hs|]. split; [reflexivity|].
  exact (makeSessionCookie_parts s true c Hs eq_refl).
Defined.

(** X10. [makeSessionCookie] returns a cookie exactly for the identifiers
    without an unpaired surrogate; for the others it throws a URIError. *)
Theorem makeSessionCookie_defined_iff s secure :
  Forall (fun u => u < 65536) s ->
  (well_formed s = true <-> exists c, Worker.makeSessionCookie s secure = Returned c) /\
  (well_formed s = false -> Worker.makeSessionCookie s secure = Threw URIError).
Proof.
  intros Hs.
  assert (Hiff : well_formed s = true
                 <-> exists c, Worker.makeSessionCookie s secure = Returned c).
  { split.
    - intros Hwf. destruct (decode_encode s Hwf) as (e & He & _).
      unfold Worker.makeSessionCookie. rewrite He. by eexists.
    - intros [c Hmk]. unfold Worker.makeSessionCookie in Hmk.
      destruct (encodeURIComponent s) as [e|] eqn:He; [|done].
      by apply (encode_returns_well_formed (length s) s e). }
  split; [exact Hiff|]. intros Hwf.
  destruct (Worker.makeSessionCookie s secure) as [c|e] eqn:Hmk.
  - assert (well_formed s = true) by (apply Hiff; by exists c). congruence.
  - unfold Worker.makeSessionCookie in Hmk.
    destruct (encodeURIComponent s) as [enc|e'] eqn:He; [done|].
    injection Hmk as <-.
    by rewrite (encodeURIComponent_throws (length s) s e' (le_n _) He).
Qed.

Lemma makeSessionCookie_defined_iff_witness :
  let s := [104; 55357; 105] in
  Forall (fun u => u < 65536) s /\
  well_formed s = false /\
  Worker.makeSessionCookie s false = Threw URIError.
Proof.
  intros s.
  assert (Hs : Forall (fun u => u < 65536) s).
  { vm_compute. repeat (constructor; [reflexivity|]). constructor. }
  split; [exact Hs|]. split; [reflexivity|].
  exact (proj2 (makeSessionCookie_defined_iff s false Hs) eq_refl).
Defined.

(** A cookie sent back as minted names the session it was minted for. *)
Lemma getCookie_minted s secure c request :
  Forall (fun u => u < 65536) s ->
  Worker.makeSessionCookie s secure = Returned c ->
  Worker.cookie_header request = Some (cookie_pair c) ->
  Worker.getCookie request (js "session") = Returned (Some s).
Proof.
  intros Hs Hmk Hh.
  destruct (makeSessionCookie_encoded s secure c Hs Hmk)
    as (e & He & Hsafe & Hdec & _).
  destruct (makeSessionCookie_pair s secure e He Hsafe) as (c' & Hmk' & Hpair).
  rewrite Hmk in Hmk'. injection Hmk' as <-.
  assert (Hvisible : Forall (fun u => u <> 59 /\ u <> 61 /\ is_white_space u = false) e).
  { eapply Forall_impl; [exact Hsafe|]. apply uri_safe_visible. }
  rewrite (getCookie_first request (cookie_pair c) [] (cookie_pair c) []
             (js "session") e); try done.
  - by rewrite Hdec.
  - rewrite Hpair. apply split_without, Forall_app. split.
    + vm_compute. repeat (constructor; [discriminate|]). constructor.
    + eapply Forall_impl; [exact Hvisible|]. by intros u [? _].
  - vm_compute. repeat (constructor; [discriminate|]). constructor.
  - rewrite Hpair. rewrite trim_clean; [done|]. apply Forall_app. split.
    + vm_compute. repeat (constructor; [reflexivity|]). constructor.
    + eapply Forall_impl; [exact Hvisible|]. by intros u (_ & _ & ?).
Qed.

(** [POST /api/chat] up to the stub call, for a request that passes
    validation. *)
Lemma api_chat_dispatch {W} platform (env : Worker.Env W) request ws
    cookie setCookie sent m :
  Worker.getCookie request (js "session") = Returned cookie ->
  minted_cookie platform request cookie = Returned setCookie ->
  Worker.json request = Some sent ->
  trimmed_field sent (js "message") = Returned m ->
  m <> [] ->
  Worker.api_chat platform env request ws =
    let name := session_of platform cookie in
    let forwarded := post (message_body m) in
    let called := Worker.stub_fetch (Worker.CHATROOMS env) name forwarded
                    (Worker.objects ws) in
    let ws1 := after_dispatch ws name forwarded called.2 in
    match called.1 with
    | Threw err =>
        (Returned (Response_json
                     (error_details_body "Failed to reach Durable Object"
                        (String_of_exn err)) 502), ws1)
    | Returned doResp =>
        if includes (default [] (Worker.stub_content_type doResp))
             (js "application/json") then
          match Worker.stub_raw doResp with
          | Unparsable text =>
              (Returned {| status := 502;
                           content_type := Some (js "application/json");
                           set_cookie := None;
                           body := JsonErrorRaw (js "DO returned invalid JSON")
                                     (Unparsable text) |}, ws1)
          | Serialized parsed =>
              if Worker.stub_ok doResp then
                match Worker.reply_of parsed with
                | Threw e => (Threw e, ws1)
                | Returned reply =>
                    (Returned {| status := 200;
                                 content_type := Some (js "application/json");
                                 set_cookie := setCookie;
                                 body := Json (JObject
                                                 match reply with
                                                 | Some r => [(js "reply", r)]
                                                 | None => []
                                                 end) |}, ws1)
                end
              else
                (Worker.Response_json_init
                   (JObject (Worker.spread parsed
                             ++ [(js "error", JString (js "Durable Object error"))]))
                   (Worker.stub_status doResp), ws1)
          end
        else
          (Returned {| status := 502;
                       content_type := Some (js "application/json");
                       set_cookie := None;
                       body := JsonErrorRaw (js "DO returned non-JSON response")
                                 (Worker.stub_raw doResp) |}, ws1)
    end.
Proof.
  intros Hc Hmint Hj Ht Hne. apply truthy_nonempty in Hne.
  unfold Worker.api_chat. rewrite Hj.
  unfold Worker.bind at 1. unfold Worker.lift at 1. rewrite Hc.
  assert (Hsession :
    (match cookie with
     | Some sessionId =>
         if truthy sessionId then Worker.ret (sessionId, None)
         else Worker.bind
                (Worker.lift (Worker.makeSessionCookie (Worker.randomUUID platform)
                   (bool_decide (Worker.protocol request = js "https:"))))
                (fun c => Worker.ret (Worker.randomUUID platform, Some c))
     | None =>
         Worker.bind
           (Worker.lift (Worker.makeSessionCookie (Worker.randomUUID platform)
              (bool_decide (Worker.protocol request = js "https:"))))
           (fun c => Worker.ret (Worker.randomUUID platform, Some c))
     end) ws = (Returned (session_of platform cookie, setCookie), ws)).
  { unfold minted_cookie, mints, session_of in *.
    destruct cookie as [sid|]; [destruct (truthy sid)|]; cbn [negb] in Hmint;
      unfold Worker.bind, Worker.lift, Worker.ret;
      try (destruct (Worker.makeSessionCookie _ _); [|done]);
      by simplify_eq. }
  unfold Worker.bind at 1. rewrite Hsession. cbn [fst snd].
  unfold Worker.bind at 1. unfold Worker.lift at 1. rewrite Ht, Hne. cbn [negb].
  unfold Worker.bind at 1. unfold Worker.call_stub.
  fold (message_body m). fold (post (message_body m)).
  cbv zeta.
  destruct (Worker.stub_fetch _ _ _ _) as [[doResp|err] w]; cbn [fst snd];
    [|reflexivity].
  destruct (includes _ _); [|reflexivity].
  destruct (Worker.stub_raw doResp) as [parsed|text]; [|reflexivity].
  destruct (Worker.stub_ok doResp); cbn [negb]; [|reflexivity].
  unfold Worker.bind, Worker.lift, Worker.ret.
  destruct (Worker.reply_of parsed) as [reply|e]; [|reflexivity].
  assert (Hset : match setCookie with
                 | Some c => if truthy c then Some c else None
                 | None => None
                 end = setCookie).
  { destruct setCookie as [c|]; [|done].
    unfold minted_cookie in Hmint. destruct (mints cookie); [|done].
    destruct (Worker.makeSessionCookie _ _) as [c'|] eqn:Hmk; [|done].
    injection Hmint as ->. by rewrite (makeSessionCookie_truthy _ _ _ Hmk). }
  by rewrite Hset.
Qed.

(** The session step of [POST /api/chat] and [GET /]. *)
Lemma session_step {W} platform request cookie (ws : Worker.State W) :
  (match cookie with
   | Some sessionId =>
       if truthy sessionId then Worker.ret (sessionId, None)
       else Worker.bind
              (Worker.lift (Worker.makeSessionCookie (Worker.randomUUID platform)
                 (bool_decide (Worker.protocol request = js "https:"))))
              (fun c => Worker.ret (Worker.randomUUID platform, Some c))
   | None =>
       Worker.bind
         (Worker.lift (Worker.makeSessionCookie (Worker.randomUUID platform)
            (bool_decide (Worker.protocol request = js "https:"))))
         (fun c => Worker.ret (Worker.randomUUID platform, Some c))
   end) ws
  = match minted_cookie platform request cookie with
    | Returned setCookie => (Returned (session_of platform cookie, setCookie), ws)
    | Threw e => (Threw e, ws)
    end.
Proof.
  unfold minted_cookie, mints, session_of.
  destruct cookie as [sid|]; [destruct (truthy sid)|]; cbn [negb];
    unfold Worker.bind, Worker.lift, Worker.ret;
    try destruct (Worker.makeSessionCookie _ _); reflexivity.
Qed.

Ltac start_api_chat Hc :=
  unfold Worker.api_chat; unfold Worker.bind at 1; unfold Worker.lift at 1;
  rewrite Hc.

Ltac session_api_chat Hc Hm :=
  start_api_chat Hc; unfold Worker.bind at 1; rewrite session_step, Hm.

(** [POST /api/chat] when the request does not reach the stub. *)
Lemma api_chat_cookie_throws {W} platform (env : Worker.Env W) request ws e :
  Worker.getCookie request (js "session") = Threw e ->
  Worker.api_chat platform env request ws = (Threw e, ws).
Proof. intros Hc. start_api_chat Hc. reflexivity. Qed.

Lemma api_chat_mint_throws {W} platform (env : Worker.Env W) request ws cookie e :
  Worker.getCookie request (js "session") = Returned cookie ->
  minted_cookie platform request cookie = Threw e ->
  Worker.api_chat platform env request ws = (Threw e, ws).
Proof. intros Hc Hm. session_api_chat Hc Hm. reflexivity. Qed.

Lemma api_chat_invalid_json {W} platform (env : Worker.Env W) request ws
    cookie setCookie :
  Worker.getCookie request (js "session") = Returned cookie ->
  minted_cookie platform request cookie = Returned setCookie ->
  Worker.json request = None ->
  Worker.api_chat platform env request ws
  = (Returned (Response_json (error_body "Invalid JSON") 400), ws).
Proof. intros Hc Hm Hj. session_api_chat Hc Hm. rewrite Hj. reflexivity. Qed.

Lemma api_chat_uncoercible {W} platform (env : Worker.Env W) request ws
    cookie setCookie sent e :
  Worker.getCookie request (js "session") = Returned cookie ->
  minted_cookie platform request cookie = Returned setCookie ->
  Worker.json request = Some sent ->
  trimmed_field sent (js "message") = Threw e ->
  Worker.api_chat platform env request ws = (Threw e, ws).
Proof.
  intros Hc Hm Hj Ht. session_api_chat Hc Hm. rewrite Hj.
  unfold Worker.bind at 1. unfold Worker.lift at 1. rewrite Ht. reflexivity.
Qed.

Lemma api_chat_blank {W} platform (env : Worker.Env W) request ws
    cookie setCookie sent :
  Worker.getCookie request (js "session") = Returned cookie ->
  minted_cookie platform request cookie = Returned setCookie ->
  Worker.json request = Some sent ->
  trimmed_field sent (js "message") = Returned [] ->
  Worker.api_chat platform env request ws
  = (Returned (Response_json (error_body "Missing message") 400), ws).
Proof.
  intros Hc Hm Hj Ht. session_api_chat Hc Hm. rewrite Hj.
  unfold Worker.bind at 1. unfold Worker.lift at 1. rewrite Ht. reflexivity.
Qed.

Lemma fetch_health {W} platform (env : Worker.Env W) request ws :
  is_health request ->
  Worker.fetch platform env request ws
  = (Returned (Response_json
                 (JObject [(js "ok", JBool true);
                           (js "hasAI", JBool (bool_decide (is_Some (Worker.AI env))));
                           (js "hasDO", JBool true);
                           (js "ts", JString (Worker.now_iso platform))]) 200), ws).
Proof.
  intros [Hm Hp]. unfold Worker.fetch. rewrite Hm, Hp.
  rewrite !bool_decide_eq_true_2 by done. cbn [andb].
  by destruct (Worker.AI env).
Qed.

Lemma fetch_ui {W} platform (env : Worker.Env W) request :
  is_ui request ->
  Worker.fetch platform env request = Worker.ui platform request.
Proof.
  intros [Hm Hp]. unfold Worker.fetch. rewrite Hm, Hp.
  rewrite (bool_decide_eq_false_2 (js "/" = js "/health")) by js_neq.
  rewrite !bool_decide_eq_true_2 by done. reflexivity.
Qed.

Lemma fetch_not_found {W} platform (env : Worker.Env W) request ws :
  ~ is_health request -> ~ is_ui request -> ~ is_api_chat request ->
  Worker.fetch platform env request ws
  = (Returned {| status := 404;
                 content_type := Some (js "text/plain;charset=UTF-8");
                 set_cookie := None;
                 body := PlainText (js "Not found") |}, ws).
Proof.
  unfold is_health, is_ui, is_api_chat, Worker.fetch. intros Hh Hu Ha.
  repeat match goal with
         | |- context [bool_decide ?P] => destruct (bool_decide_reflect P)
         end; cbn [andb]; try reflexivity; tauto.
Qed.

Lemma ui_cases {W} platform request (ws : Worker.State W) :
  Worker.ui platform request ws
  = match Worker.getCookie request (js "session") with
    | Threw e => (Threw e, ws)
    | Returned cookie =>
        match minted_cookie platform request cookie with
        | Threw e => (Threw e, ws)
        | Returned setCookie =>
            (Returned {| status := 200;
                         content_type := Some (js "text/html; charset=utf-8");
                         set_cookie := setCookie;
                         body := HtmlPage |}, ws)
        end
    end.
Proof.
  unfold Worker.ui. unfold Worker.bind at 1. unfold Worker.lift at 1.
  destruct (Worker.getCookie request (js "session")) as [cookie|e]; [|done].
  unfold Worker.bind at 1.
  assert (Hstep := session_step platform request cookie ws).
  unfold minted_cookie, mints in *.
  destruct cookie as [sid|]; [destruct (truthy sid)|]; cbn [negb] in *;
    unfold Worker.bind, Worker.lift, Worker.ret;
    try destruct (Worker.makeSessionCookie _ _); reflexivity.
Qed.

Lemma own_property_app props extra key :
  own_property (props ++ extra) key
  = match own_property props key with
    | Some v => Some v
    | None => own_property extra key
    end.
Proof.
  induction props as [|[k v] props IH]; [done|]. cbn [app own_property].
  by destruct (bool_decide (k = key)).
Qed.

Lemma minted_existing platform request sid :
  sid <> [] -> minted_cookie platform request (Some sid) = Returned None.
Proof. intros Hne. unfold minted_cookie, mints. by rewrite truthy_nonempty. Qed.

Lemma session_of_existing platform sid :
  sid <> [] -> session_of platform (Some sid) = sid.
Proof. intros Hne. unfold session_of. by rewrite truthy_nonempty. Qed.

(** A request that names a session is served under it and is never sent a
    cookie. *)
Lemma api_chat_existing_session {W} platform (env : Worker.Env W) request ws
    sid response ws' :
  Worker.getCookie request (js "session") = Returned (Some sid) ->
  sid <> [] ->
  Worker.api_chat platform env request ws = (Returned response, ws') ->
  set_cookie response = None /\
  (forall name sent,
     (name, sent) ∈ drop (length (Worker.dispatched ws)) (Worker.dispatched ws') ->
     name = sid).
Proof.
  intros Hc Hne.
  pose proof (minted_existing platform request sid Hne) as Hm.
  destruct (Worker.json request) as [sent|] eqn:Hj.
  2: { rewrite (api_chat_invalid_json _ _ _ _ _ _ Hc Hm Hj). intros [= <- <-].
       split; [done|]. rewrite drop_all. intros ?? Hin. by in_cases Hin. }
  destruct (trimmed_field sent (js "message")) as [[|c m]|e] eqn:Ht.
  { rewrite (api_chat_blank _ _ _ _ _ _ _ Hc Hm Hj Ht). intros [= <- <-].
    split; [done|]. rewrite drop_all. intros ?? Hin. by in_cases Hin. }
  2: { by rewrite (api_chat_uncoercible _ _ _ _ _ _ _ _ Hc Hm Hj Ht). }
  rewrite (api_chat_dispatch _ _ _ _ _ _ _ _ Hc Hm Hj Ht) by done. cbv zeta.
  rewrite (session_of_existing platform sid Hne).
  assert (Hnames : forall w name sent',
            (name, sent')
            ∈ drop (length (Worker.dispatched ws))
                (Worker.dispatched
                   (after_dispatch ws sid (post (message_body (c :: m))) w)) ->
            name = sid).
  { intros w name sent'. unfold after_dispatch. cbn [Worker.dispatched].
    rewrite drop_app_length. intros Hin. by in_cases Hin. }
  destruct (Worker.stub_fetch _ _ _ _) as [[doResp|err] w]; cbn [fst snd].
  2: { intros [= <- <-]. split; [done|]. apply Hnames. }
  destruct (includes _ _).
  2: { intros [= <- <-]. split; [done|]. apply Hnames. }
  destruct (Worker.stub_raw doResp) as [parsed|text].
  2: { intros [= <- <-]. split; [done|]. apply Hnames. }
  destruct (Worker.stub_ok doResp).
  - destruct (Worker.reply_of parsed) as [reply|e]; [|done].
    intros [= <- <-]. split; [done|]. apply Hnames.
  - unfold Worker.Response_json_init.
    repeat case_match; try done; intros [= <- <-]; (split; [done|apply Hnames]).
Qed.

(** X11. A [POST /api/chat] request that names a session in its cookie is
    never sent a [set-cookie] header, whatever the outcome, and the Durable
    Object it reaches is the one named by the cookie's value. *)
Theorem existing_session_is_kept {W} platform (env : Worker.Env W) request ws
    sid response ws' :
  is_api_chat request ->
  Worker.getCookie request (js "session") = Returned (Some sid) ->
  sid <> [] ->
  Worker.fetch platform env request ws = (Returned response, ws') ->
  set_cookie response = None /\
  (forall name sent,
     (name, sent) ∈ drop (length (Worker.dispatched ws)) (Worker.dispatched ws') ->
     name = sid).
Proof.
  intros [Hm Hp] Hc Hne. rewrite fetch_api_chat by done.
  by apply api_chat_existing_session.
Qed.

Lemma existing_session_is_kept_witness :
  let request := api_chat_with_cookie (js "theme=dark; session=abc") (message_body (js "hi")) in
  exists response ws',
    Worker.getCookie request (js "session") = Returned (Some (js "abc")) /\
    Worker.fetch example_platform (Worker.deployed None) request no_rooms
    = (Returned response, ws') /\
    status response = 200%Z /\
    set_cookie response = None /\
    (forall name sent,
       (name, sent)
       ∈ drop (length (Worker.dispatched no_rooms)) (Worker.dispatched ws') ->
       name = js "abc").
Proof.
  intros request. eexists _, _.
  split; [reflexivity|]. split; [vm_compute; reflexivity|]. split; [reflexivity|].
  apply (existing_session_is_kept example_platform (Worker.deployed None) request
           no_rooms (js "abc"));
    first [ split; reflexivity | reflexivity | vm_compute; discriminate
          | vm_compute; reflexivity ].
Defined.

(** X12. A first visit to [/] without a cookie is answered with the page and
    a cookie minted for a new identifier.  A later request that sends that
    cookie back is not sent another: [GET /] answers without [set-cookie],
    and [POST /api/chat] reaches the Durable Object named by the identifier
    of the first visit. *)
Theorem visitor_keeps_session {W} platform (env : Worker.Env W) first ws c :
  Forall (fun u => u < 65536) (Worker.randomUUID platform) ->
  Worker.randomUUID platform <> [] ->
  is_ui first ->
  Worker.getCookie first (js "session") = Returned None ->
  Worker.makeSessionCookie (Worker.randomUUID platform)
    (bool_decide (Worker.protocol first = js "https:")) = Returned c ->
  Worker.fetch platform env first ws
  = (Returned {| status := 200;
                 content_type := Some (js "text/html; charset=utf-8");
                 set_cookie := Some c;
                 body := HtmlPage |}, ws) /\
  forall platform' request ws1,
    Worker.cookie_header request = Some (cookie_pair c) ->
    (is_ui request ->
     Worker.fetch platform' env request ws1
     = (Returned {| status := 200;
                    content_type := Some (js "text/html; charset=utf-8");
                    set_cookie := None;
                    body := HtmlPage |}, ws1)) /\
    (is_api_chat request ->
     forall response ws',
       Worker.fetch platform' env request ws1 = (Returned response, ws') ->
       set_cookie response = None /\
       (forall name sent,
          (name, sent)
          ∈ drop (length (Worker.dispatched ws1)) (Worker.dispatched ws') ->
          name = Worker.randomUUID platform)).
Proof.
  intros Hs Hne Hui Hc Hmk. split.
  - rewrite fetch_ui by done. rewrite ui_cases, Hc.
    unfold minted_cookie, mints. by rewrite Hmk.
  - intros platform' request ws1 Hh.
    pose proof (getCookie_minted _ _ _ request Hs Hmk Hh) as Hback.
    split.
    + intros Hui'. rewrite fetch_ui by done. rewrite ui_cases, Hback.
      by rewrite minted_existing.
    + intros [Hm Hp] response ws'. rewrite fetch_api_chat by done.
      by apply api_chat_existing_session.
Qed.

Lemma visitor_keeps_session_witness :
  let c := js "session=3f2b8c1e-7a4d-4e9b-9c3a-5d6e7f8091a2; Path=/; HttpOnly; SameSite=Lax; Max-Age=2592000; Secure" in
  let back := api_chat_with_cookie (cookie_pair c) (message_body (js "hi")) in
  let later := {| Worker.randomUUID := js "00000000-0000-4000-8000-000000000000";
                  Worker.now_iso := js "2025-01-02T00:00:00.000Z" |} in
  (Worker.fetch example_platform (Worker.deployed None) first_visit no_rooms).1
  = Returned {| status := 200;
                content_type := Some (js "text/html; charset=utf-8");
                set_cookie := Some c;
                body := HtmlPage |} /\
  forall response ws',
    Worker.fetch later (Worker.deployed None) back no_rooms = (Returned response, ws') ->
    set_cookie response = None /\
    (forall name sent,
       (name, sent)
       ∈ drop (length (Worker.dispatched no_rooms)) (Worker.dispatched ws') ->
       name = Worker.randomUUID example_platform).
Proof.
  intros c back later.
  assert (Hs : Forall (fun u => u < 65536) (Worker.randomUUID example_platform)).
  { vm_compute. repeat (constructor; [reflexivity|]). constructor. }
  assert (Hne : Worker.randomUUID example_platform <> []).
  { vm_compute. discriminate. }
  destruct (visitor_keeps_session example_platform (Worker.deployed None)
              first_visit no_rooms c Hs Hne (conj eq_refl eq_refl) eq_refl eq_refl)
    as [Hfirst Hback].
  split; [by rewrite Hfirst|].
  exact (proj2 (Hback later back no_rooms eq_refl) (conj eq_refl eq_refl)).
Defined.

(** X13. Once a request has passed validation the Worker calls the stub
    exactly once, and answers 502 without a cookie when the call throws
    (with the failure's text as details), when the response is not declared
    as JSON, and when its body does not parse (both with the raw body). *)
Theorem holder_failures_become_502 {W} platform (env : Worker.Env W) request ws
    cookie setCookie sent m called w :
  is_api_chat request ->
  Worker.getCookie request (js "session") = Returned cookie ->
  minted_cookie platform request cookie = Returned setCookie ->
  Worker.json request = Some sent ->
  trimmed_field sent (js "message") = Returned m ->
  m <> [] ->
  Worker.stub_fetch (Worker.CHATROOMS env) (session_of platform cookie)
    (post (message_body m)) (Worker.objects ws) = (called, w) ->
  let ws1 := after_dispatch ws (session_of platform cookie) (post (message_body m)) w in
  let failure (error : Body) :=
    Worker.fetch platform env request ws
    = (Returned {| status := 502;
                   content_type := Some (js "application/json");
                   set_cookie := None;
                   body := error |}, ws1) in
  (forall err,
     called = Threw err ->
     failure (Json (JObject [(js "error", JString (js "Failed to reach Durable Object"));
                             (js "details", JString (String_of_exn err))]))) /\
  (forall doResp,
     called = Returned doResp ->
     includes (default [] (Worker.stub_content_type doResp)) (js "application/json")
     = false ->
     failure (JsonErrorRaw (js "DO returned non-JSON response") (Worker.stub_raw doResp))) /\
  (forall doResp text,
     called = Returned doResp ->
     includes (default [] (Worker.stub_content_type doResp)) (js "application/json")
     = true ->
     Worker.stub_raw doResp = Unparsable text ->
     failure (JsonErrorRaw (js "DO returned invalid JSON") (Unparsable text))).
Proof.
  intros [Hm Hp] Hc Hmint Hj Ht Hne Hstub. cbv zeta.
  rewrite fetch_api_chat by done.
  rewrite (api_chat_dispatch _ _ _ _ _ _ _ _ Hc Hmint Hj Ht Hne). cbv zeta.
  rewrite Hstub. cbn [fst snd].
  split; [|split].
  - by intros err ->.
  - by intros doResp -> ->.
  - by intros doResp text -> -> ->.
Qed.

Lemma holder_failures_become_502_witness :
  let env := {| Worker.AI := None; Worker.CHATROOMS := unreachable |} in
  let request := api_chat_request (message_body (js "hi")) in
  Worker.fetch example_platform env request no_objects
  = (Returned {| status := 502;
                 content_type := Some (js "application/json");
                 set_cookie := None;
                 body := Json (JObject
                                 [(js "error", JString (js "Failed to reach Durable Object"));
                                  (js "details", JString (js "Network connection lost."))]) |},
     after_dispatch no_objects (Worker.randomUUID example_platform)
       (post (message_body (js "hi"))) tt).
Proof.
  intros env request.
  assert (Hmint : exists setCookie,
            minted_cookie example_platform request None = Returned setCookie).
  { eexists. vm_compute. reflexivity. }
  destruct Hmint as [setCookie Hmint].
  exact (proj1 (holder_failures_become_502 example_platform env request no_objects
                  None setCookie (message_body (js "hi")) (js "hi")
                  (Threw (Rejection (js "Network connection lost."))) tt
                  (conj eq_refl eq_refl) eq_refl Hmint eq_refl eq_refl
                  ltac:(vm_compute; discriminate) eq_refl)
           (Rejection (js "Network connection lost.")) eq_refl).
Defined.

(** X14. When the Durable Object answers a JSON body with a status outside
    200..299, the Worker answers with that status and with every property of
    the object's payload; the payload's own [error] wins over the Worker's
    [Durable Object error].  A status the [Response] constructor refuses
    makes the handler throw: RangeError outside 200..599, TypeError for
    304. *)
Theorem holder_status_is_propagated {W} platform (env : Worker.Env W) request ws
    cookie setCookie sent m doResp parsed w :
  is_api_chat request ->
  Worker.getCookie request (js "session") = Returned cookie ->
  minted_cookie platform request cookie = Returned setCookie ->
  Worker.json request = Some sent ->
  trimmed_field sent (js "message") = Returned m ->
  m <> [] ->
  Worker.stub_fetch (Worker.CHATROOMS env) (session_of platform cookie)
    (post (message_body m)) (Worker.objects ws) = (Returned doResp, w) ->
  includes (default [] (Worker.stub_content_type doResp)) (js "application/json")
  = true ->
  Worker.stub_raw doResp = Serialized parsed ->
  Worker.stub_ok doResp = false ->
  let st := Worker.stub_status doResp in
  let outcome := (Worker.fetch platform env request ws).1 in
  ((st < 200 \/ 599 < st)%Z -> outcome = Threw RangeError) /\
  (st = 304%Z -> outcome = Threw TypeError) /\
  ((300 <= st <= 599)%Z -> st <> 304%Z ->
   exists props,
     outcome = Returned (Response_json (JObject props) st) /\
     own_property props (js "error")
     = Some (default (JString (js "Durable Object error"))
               (own_property (Worker.spread parsed) (js "error"))) /\
     forall key v,
       own_property (Worker.spread parsed) key = Some v ->
       own_property props key = Some v).
Proof.
  intros [Hm Hp] Hc Hmint Hj Ht Hne Hstub Hct Hraw Hok. cbv zeta.
  rewrite fetch_api_chat by done.
  rewrite (api_chat_dispatch _ _ _ _ _ _ _ _ Hc Hmint Hj Ht Hne). cbv zeta.
  rewrite Hstub. cbn [fst snd]. rewrite Hct, Hraw, Hok. cbn [fst].
  unfold Worker.Response_json_init.
  split; [|split].
  - intros Hrange.
    replace ((200 <=? Worker.stub_status doResp)%Z
             && (Worker.stub_status doResp <=? 599)%Z) with false; [done|].
    symmetry. apply andb_false_iff. rewrite Z.leb_gt, Z.leb_gt. lia.
  - intros ->. reflexivity.
  - intros Hrange Hne304.
    replace ((200 <=? Worker.stub_status doResp)%Z
             && (Worker.stub_status doResp <=? 599)%Z) with true
      by (symmetry; apply andb_true_iff; rewrite !Z.leb_le; lia).
    cbn [negb].
    replace ((Worker.stub_status doResp =? 204)%Z
             || (Worker.stub_status doResp =? 205)%Z
             || (Worker.stub_status doResp =? 304)%Z) with false
      by (symmetry; rewrite !orb_false_iff, !Z.eqb_neq; lia).
    eexists. split; [reflexivity|]. split.
    + rewrite own_property_app.
      destruct (own_property (Worker.spread parsed) (js "error")); reflexivity.
    + intros key v Hv. by rewrite own_property_app, Hv.
Qed.

Lemma holder_status_is_propagated_witness :
  let env := {| Worker.AI := None; Worker.CHATROOMS := throttled |} in
  let request := api_chat_request (message_body (js "hi")) in
  exists props,
    (Worker.fetch example_platform env request no_objects).1
    = Returned (Response_json (JObject props) 429) /\
    own_property props (js "error") = Some (JString (js "Slow down")) /\
    own_property props (js "retryAfter") = Some (JNumber 3).
Proof.
  intros env request.
  assert (Hmint : exists setCookie,
            minted_cookie example_platform request None = Returned setCookie).
  { eexists. vm_compute. reflexivity. }
  destruct Hmint as [setCookie Hmint].
  pose (doResp := {| Worker.stub_status := 429;
                     Worker.stub_content_type := Some (js "application/json");
                     Worker.stub_raw :=
                       Serialized (JObject [(js "error", JString (js "Slow down"));
                                            (js "retryAfter", JNumber 3)]) |}).
  destruct (holder_status_is_propagated example_platform env request no_objects
              None setCookie (message_body (js "hi")) (js "hi") doResp
              (JObject [(js "error", JString (js "Slow down"));
                        (js "retryAfter", JNumber 3)]) tt
              (conj eq_refl eq_refl) eq_refl Hmint eq_refl eq_refl
              ltac:(vm_compute; discriminate) eq_refl eq_refl eq_refl eq_refl)
    as (_ & _ & Hprop).
  destruct (Hprop ltac:(vm_compute; split; discriminate) ltac:(vm_compute; discriminate))
    as (props & Hout & Herr & Hkeep).
  exists props. split; [exact Hout|]. split; [exact Herr|].
  apply Hkeep. reflexivity.
Defined.

(** The ChatRoom's answers to a message the Worker forwards. *)
Lemma fetch_forwarded AI m room :
  m <> [] -> trim m = m ->
  exists v st,
    (ChatRoom.fetch AI (post (message_body m)) room).1 = Response_json v st /\
    ((st = 200%Z /\ exists reply, v = JObject [(js "reply", JString reply)]) \/
     (st ∈ [500; 502]%Z /\ exists props, v = JObject props)).
Proof.
  intros Hne Htrim.
  rewrite (fetch_valid AI (post (message_body m)) (message_body m) m room);
    try done.
  2: { by rewrite trimmed_field_message, Htrim. }
  cbv zeta. destruct AI as [run|].
  - destruct (run _) as [aiResult|err].
    + destruct (trimmed_field aiResult _) as [reply|e].
      * destruct (truthy reply); cbn [fst]; eexists _, _; (split; [reflexivity|]).
        -- left. split; [done|]. by eexists.
        -- right. split; [rewrite !elem_of_cons; auto|]. by eexists.
      * cbn [fst]. eexists _, _. split; [reflexivity|].
        right. split; [rewrite !elem_of_cons; auto|]. by eexists.
    + cbn [fst]. eexists _, _. split; [reflexivity|].
      right. split; [rewrite !elem_of_cons; auto|]. by eexists.
  - cbn [fst]. eexists _, _. split; [reflexivity|].
    left. split; [done|]. by eexists.
Qed.

(** The deployed Worker on a request that passes validation: the room of
    the session answers, and the Worker relays. *)
Lemma deployed_dispatch platform AI request ws cookie setCookie sent m :
  Worker.getCookie request (js "session") = Returned cookie ->
  minted_cookie platform request cookie = Returned setCookie ->
  Worker.json request = Some sent ->
  trimmed_field sent (js "message") = Returned m ->
  m <> [] ->
  let name := session_of platform cookie in
  let forwarded := post (message_body m) in
  let room := default ChatRoom.fresh (Worker.objects ws !! name) in
  let answer := ChatRoom.fetch AI forwarded room in
  exists response,
    Worker.api_chat platform (Worker.deployed AI) request ws
    = (Returned response,
       after_dispatch ws name forwarded (<[name := answer.2]> (Worker.objects ws))) /\
    status response = status answer.1 /\
    status response ∈ [200; 500; 502]%Z /\
    content_type response = Some (js "application/json") /\
    ((status answer.1 = 200%Z /\ body response = body answer.1 /\
      set_cookie response = setCookie) \/
     (status answer.1 <> 200%Z /\ set_cookie response = None /\
      exists props,
        body answer.1 = Json (JObject props) /\
        body response
        = Json (JObject (props ++ [(js "error", JString (js "Durable Object error"))])))).
Proof.
  intros Hc Hmint Hj Ht Hne. cbv zeta.
  rewrite (api_chat_dispatch _ _ _ _ _ _ _ _ Hc Hmint Hj Ht Hne). cbv zeta.
  cbn [Worker.deployed Worker.CHATROOMS Worker.chatrooms Worker.stub_fetch].
  destruct (fetch_forwarded AI m
              (default ChatRoom.fresh (Worker.objects ws !! session_of platform cookie))
              Hne (trimmed_field_trimmed _ _ _ Ht))
    as (v & st & Hanswer & Hcases).
  destruct (ChatRoom.fetch AI (post (message_body m)) _) as [answer room'].
  cbn [fst snd] in *. subst answer.
  cbn [Worker.stub_content_type Worker.stub_raw Worker.stub_status
       Response_json content_type body status default].
  replace (includes (js "application/json") (js "application/json")) with true
    by (vm_compute; reflexivity).
  unfold Worker.stub_ok. cbn [Worker.stub_status].
  destruct Hcases as [(-> & reply & ->)|(Hst & props & ->)].
  - cbn. eexists. split; [reflexivity|]. cbn.
    split; [done|]. split; [rewrite !elem_of_cons; auto|]. split; [done|].
    left. done.
  - assert (Hnot : st <> 200%Z) by (intros ->; by in_cases Hst).
    unfold Worker.Response_json_init.
    in_cases Hst; cbn; (eexists; split; [reflexivity|]); cbn;
      (split; [done|]); (split; [rewrite !elem_of_cons; auto|]);
      (split; [done|]); right; (split; [done|]); (split; [done|]);
      by eexists.
Qed.

(** Every payload of the ChatRoom that is not a reply names its [error]. *)
Lemma forwarded_failure_names_error AI m room props :
  m <> [] -> trim m = m ->
  status (ChatRoom.fetch AI (post (message_body m)) room).1 <> 200%Z ->
  body (ChatRoom.fetch AI (post (message_body m)) room).1 = Json (JObject props) ->
  exists e, own_property props (js "error") = Some e.
Proof.
  intros Hne Htrim.
  rewrite (fetch_valid AI (post (message_body m)) (message_body m) m room);
    try done.
  2: { by rewrite trimmed_field_message, Htrim. }
  cbv zeta. destruct AI as [run|]; [|done].
  destruct (run _) as [aiResult|err].
  - destruct (trimmed_field aiResult _) as [reply|e].
    + destruct (truthy reply); cbn [fst]; [done|].
      intros _ [= <-]. by eexists.
    + cbn [fst]. intros _ [= <-]. by eexists.
  - cbn [fst]. intros _ [= <-]. by eexists.
Qed.

(** X15. With ChatRooms behind the namespace, a [POST /api/chat] request
    that passes validation is answered by the ChatRoom of its session, run on
    the trimmed message: the Worker stores the room's new state under the
    session's name and answers with the room's status; on 200 it relays the
    room's body and attaches the planned cookie, otherwise it answers without
    a cookie and with the properties of the room's payload, the room's own
    [error] among them. *)
Theorem deployed_worker_relays platform AI request ws cookie setCookie sent m :
  is_api_chat request ->
  Worker.getCookie request (js "session") = Returned cookie ->
  minted_cookie platform request cookie = Returned setCookie ->
  Worker.json request = Some sent ->
  trimmed_field sent (js "message") = Returned m ->
  m <> [] ->
  let name := session_of platform cookie in
  let forwarded := post (message_body m) in
  let room := default ChatRoom.fresh (Worker.objects ws !! name) in
  let answer := ChatRoom.fetch AI forwarded room in
  exists response,
    Worker.fetch platform (Worker.deployed AI) request ws
    = (Returned response,
       after_dispatch ws name forwarded (<[name := answer.2]> (Worker.objects ws))) /\
    status response = status answer.1 /\
    ((status answer.1 = 200%Z /\ body response = body answer.1 /\
      set_cookie response = setCookie) \/
     (status answer.1 <> 200%Z /\ set_cookie response = None /\
      exists props relayed,
        body answer.1 = Json (JObject props) /\
        body response = Json (JObject relayed) /\
        forall key, own_property relayed key = own_property props key)).
Proof.
  intros [Hm Hp] Hc Hmint Hj Ht Hne. cbv zeta.
  rewrite fetch_api_chat by done.
  destruct (deployed_dispatch platform AI request ws cookie setCookie sent m
              Hc Hmint Hj Ht Hne) as (response & Hf & Hst & _ & _ & Hcases).
  exists response. split; [exact Hf|]. split; [exact Hst|].
  destruct Hcases as [H200|(Hn & Hset & props & Hb & Hr)]; [by left|].
  right. split; [exact Hn|]. split; [exact Hset|].
  eexists props, _. split; [exact Hb|]. split; [exact Hr|].
  intros key. rewrite own_property_app.
  destruct (own_property props key) as [v|] eqn:Hk; [done|].
  destruct (forwarded_failure_names_error AI m _ props Hne
              (trimmed_field_trimmed _ _ _ Ht) Hn Hb) as [e He].
  cbn [own_property]. case_bool_decide as Hkey; [|done].
  subst key. congruence.
Qed.

Lemma deployed_worker_relays_witness :
  let request := api_chat_with_cookie (js "session=abc") (message_body (js " again ")) in
  let room := room_holding [user_says (js "hello"); assistant_says (js "hi there")] in
  let ws := {| Worker.objects := {[ js "abc" := room ]}; Worker.dispatched := [] |} in
  let answer := ChatRoom.fetch (Some overloaded) (post (message_body (js "again"))) room in
  status answer.1 = 502%Z /\
  exists response,
    Worker.fetch example_platform (Worker.deployed (Some overloaded)) request ws
    = (Returned response,
       after_dispatch ws (js "abc") (post (message_body (js "again")))
         (<[js "abc" := answer.2]> (Worker.objects ws))) /\
    status response = 502%Z.
Proof.
  intros request room ws answer. split; [reflexivity|].
  destruct (deployed_worker_relays example_platform (Some overloaded) request ws
              (Some (js "abc")) None (message_body (js " again ")) (js "again")
              (conj eq_refl eq_refl) eq_refl eq_refl eq_refl eq_refl
              ltac:(vm_compute; discriminate))
    as (response & Hf & Hst & _).
  exists response. split; [exact Hf|]. rewrite Hst. reflexivity.
Defined.

Lemma routes_exclusive request :
  (is_health request -> ~ is_ui request /\ ~ is_api_chat request) /\
  (is_ui request -> ~ is_api_chat request).
Proof.
  unfold is_health, is_ui, is_api_chat. split.
  - intros [Hm Hp]. rewrite Hm, Hp. split; intros [H1 H2];
      [vm_compute in H2|vm_compute in H1]; discriminate.
  - intros [Hm Hp]. rewrite Hm. intros [H1 H2]. vm_compute in H1. discriminate.
Qed.

(** Everything the deployed Worker can do with one request. *)
Lemma deployed_fetch_summary platform AI request ws :
  let r := Worker.fetch platform (Worker.deployed AI) request ws in
  match r.1 with
  | Threw e =>
      r.2 = ws /\ (is_ui request \/ is_api_chat request) /\
      (Worker.getCookie request (js "session") = Threw e \/
       (exists cookie,
          Worker.getCookie request (js "session") = Returned cookie /\
          minted_cookie platform request cookie = Threw e) \/
       (is_api_chat request /\
        exists sent, Worker.json request = Some sent /\
                     trimmed_field sent (js "message") = Threw e))
  | Returned response =>
      status response ∈ [200; 400; 404; 500; 502]%Z /\
      (status response = 404%Z <->
       ~ is_health request /\ ~ is_ui request /\ ~ is_api_chat request) /\
      (forall error raw, body response <> JsonErrorRaw error raw) /\
      (r.2 = ws \/
       is_api_chat request /\
       exists cookie sent m,
         Worker.getCookie request (js "session") = Returned cookie /\
         Worker.json request = Some sent /\
         trimmed_field sent (js "message") = Returned m /\ m <> [] /\
         r.2 = after_dispatch ws (session_of platform cookie) (post (message_body m))
                 (<[session_of platform cookie :=
                      (ChatRoom.fetch AI (post (message_body m))
                         (default ChatRoom.fresh
                            (Worker.objects ws !! session_of platform cookie))).2]>
                    (Worker.objects ws)))
  end.
Proof.
  cbv zeta. destruct (routes_exclusive request) as [Hexh Hexu].
  unfold is_health, is_ui, is_api_chat in *.
  destruct (decide (Worker.method request = js "GET"
                    /\ Worker.pathname request = js "/health")) as [Hh|Hh].
  { rewrite fetch_health by done. cbn [fst snd].
    split; [rewrite !elem_of_cons; auto|]. split; [|split; [done|by left]].
    split; [done|]. tauto. }
  destruct (decide (Worker.method request = js "GET"
                    /\ Worker.pathname request = js "/")) as [Hu|Hu].
  { rewrite fetch_ui by done. rewrite ui_cases.
    destruct (Worker.getCookie request (js "session")) as [cookie|e] eqn:Hc.
    2: { cbn [fst snd]. split; [done|]. split; [by left|]. by left. }
    destruct (minted_cookie platform request cookie) as [setCookie|e] eqn:Hmint.
    2: { cbn [fst snd]. split; [done|]. split; [by left|]. right; left. by exists cookie. }
    cbn [fst snd]. split; [rewrite !elem_of_cons; auto|].
    split; [|split; [done|by left]]. split; [done|]. tauto. }
  destruct (decide (Worker.method request = js "POST"
                    /\ Worker.pathname request = js "/api/chat")) as [Ha|Ha].
  2: { rewrite fetch_not_found by done. cbn [fst snd].
       split; [rewrite !elem_of_cons; auto 10|]. split; [done|].
       split; [done|by left]. }
  rewrite fetch_api_chat by tauto.
  assert (Hnot404 : forall st : Z,
            st ∈ [200; 400; 500; 502]%Z ->
            st = 404%Z <->
            ~ (Worker.method request = js "GET" /\ Worker.pathname request = js "/health")
            /\ ~ (Worker.method request = js "GET" /\ Worker.pathname request = js "/")
            /\ ~ (Worker.method request = js "POST"
                  /\ Worker.pathname request = js "/api/chat")).
  { intros st Hst. split; [|tauto]. intros ->. by in_cases Hst. }
  destruct (Worker.getCookie request (js "session")) as [cookie|e] eqn:Hc.
  2: { rewrite (api_chat_cookie_throws _ _ _ _ _ Hc). cbn [fst snd].
       split; [done|]. split; [by right|]. by left. }
  destruct (minted_cookie platform request cookie) as [setCookie|e] eqn:Hmint.
  2: { rewrite (api_chat_mint_throws _ _ _ _ _ _ Hc Hmint). cbn [fst snd].
       split; [done|]. split; [by right|]. right; left. by exists cookie. }
  destruct (Worker.json request) as [sent|] eqn:Hj.
  2: { rewrite (api_chat_invalid_json _ _ _ _ _ _ Hc Hmint Hj). cbn [fst snd].
       split; [rewrite !elem_of_cons; auto|].
       split; [apply Hnot404; rewrite !elem_of_cons; auto|].
       split; [done|by left]. }
  destruct (trimmed_field sent (js "message")) as [[|c m]|e] eqn:Ht.
  { rewrite (api_chat_blank _ _ _ _ _ _ _ Hc Hmint Hj Ht). cbn [fst snd].
    split; [rewrite !elem_of_cons; auto|].
    split; [apply Hnot404; rewrite !elem_of_cons; auto|].
    split; [done|by left]. }
  2: { rewrite (api_chat_uncoercible _ _ _ _ _ _ _ _ Hc Hmint Hj Ht). cbn [fst snd].
       split; [done|]. split; [by right|]. right; right. split; [done|]. by exists sent. }
  destruct (deployed_dispatch platform AI request ws cookie setCookie sent (c :: m)
              Hc Hmint Hj Ht ltac:(done))
    as (response & -> & Hst & Hin & _ & Hbody).
  cbn [fst snd].
  split; [in_cases Hin; rewrite Hin; rewrite !elem_of_cons; auto 10|].
  split; [apply Hnot404; in_cases Hin; rewrite Hin; rewrite !elem_of_cons; auto|].
  split.
  { intros error raw Hb.
    destruct Hbody as [(H200 & Hsame & _)|(_ & _ & props & _ & Hsame)].
    - rewrite Hsame in Hb.
      destruct (fetch_is_json AI (post (message_body (c :: m)))
                  (default ChatRoom.fresh
                     (Worker.objects ws !! session_of platform cookie))) as [v Hv].
      rewrite Hv in Hb. done.
    - rewrite Hsame in Hb. done. }
  right. split; [done|]. by exists cookie, sent, (c :: m).
Qed.

Lemma find_cookie_throws parts name e :
  Worker.find_cookie parts name = Threw e -> e = URIError.
Proof.
  induction parts as [|p parts IH]; [done|]. cbn [Worker.find_cookie].
  destruct (split 61 (trim p)) as [|k v]; [exact IH|].
  destruct (bool_decide (k = name)); [|exact IH].
  destruct (decodeURIComponent _) as [value|e'] eqn:Hd; [done|].
  intros [= <-]. by eapply decodeURIComponent_throws.
Qed.

Lemma getCookie_throws request name e :
  Worker.getCookie request name = Threw e -> e = URIError.
Proof.
  unfold Worker.getCookie. destruct (Worker.cookie_header request); [|done].
  destruct (truthy _); [|done]. apply find_cookie_throws.
Qed.

Lemma minted_cookie_throws platform request cookie e :
  minted_cookie platform request cookie = Threw e ->
  e = URIError /\
  Worker.makeSessionCookie (Worker.randomUUID platform)
    (bool_decide (Worker.protocol request = js "https:")) = Threw URIError.
Proof.
  unfold minted_cookie. destruct (mints cookie); [|done].
  destruct (Worker.makeSessionCookie _ _) as [c|e'] eqn:Hmk; [done|].
  intros [= <-]. unfold Worker.makeSessionCookie in Hmk.
  destruct (encodeURIComponent _) as [enc|e''] eqn:He; [done|].
  injection Hmk as <-.
  by rewrite (encodeURIComponent_throws _ _ _ (le_n _) He).
Qed.

(** X16. With ChatRooms behind the namespace, an exception escapes the
    Worker only for a session cookie that does not decode or a new identifier
    that does not encode (URIError), or for a message that cannot be coerced
    to a string (TypeError); no Durable Object has been called by then. *)
Theorem deployed_worker_throws_on_input_only platform AI request ws e ws' :
  Worker.fetch platform (Worker.deployed AI) request ws = (Threw e, ws') ->
  ws' = ws /\
  ((e = URIError /\
    (Worker.getCookie request (js "session") = Threw URIError \/
     Worker.makeSessionCookie (Worker.randomUUID platform)
       (bool_decide (Worker.protocol request = js "https:")) = Threw URIError)) \/
   (e = TypeError /\ is_api_chat request /\
    exists sent, Worker.json request = Some sent /\
                 trimmed_field sent (js "message") = Threw TypeError)).
Proof.
  intros Hf. pose proof (deployed_fetch_summary platform AI request ws) as Hsum.
  cbv zeta in Hsum. rewrite Hf in Hsum. cbn [fst snd] in Hsum.
  destruct Hsum as (-> & _ & [Hc|[(cookie & Hc & Hm)|(Ha & sent & Hj & Ht)]]).
  - split; [done|]. left. pose proof (getCookie_throws _ _ _ Hc) as ->. tauto.
  - split; [done|]. left. by destruct (minted_cookie_throws _ _ _ _ Hm) as [-> ?]; auto.
  - split; [done|]. right. pose proof (trimmed_field_throws _ _ _ Ht) as ->.
    split; [done|]. split; [done|]. by exists sent.
Qed.

Lemma deployed_worker_throws_on_input_only_witness :
  Worker.fetch example_platform (Worker.deployed None) bad_cookie_request no_rooms
  = (Threw URIError, no_rooms) /\
  Worker.getCookie bad_cookie_request (js "session") = Threw URIError.
Proof.
  assert (Hf : Worker.fetch example_platform (Worker.deployed None)
                 bad_cookie_request no_rooms = (Threw URIError, no_rooms)).
  { vm_compute. reflexivity. }
  split; [exact Hf|].
  destruct (deployed_worker_throws_on_input_only example_platform None
              bad_cookie_request no_rooms URIError no_rooms Hf)
    as (_ & [(_ & [Hc|Hm])|(He & _)]).
  - exact Hc.
  - vm_compute in Hm. discriminate Hm.
  - discriminate He.
Defined.

(** X17. With ChatRooms behind the namespace, a response of the Worker has
    status 200, 400, 404, 500 or 502; it is 404 exactly when the request
    matches none of [GET /health], [GET /] and [POST /api/chat]; and it never
    reports a non-JSON or unparsable Durable Object response. *)
Theorem deployed_worker_statuses platform AI request ws response ws' :
  Worker.fetch platform (Worker.deployed AI) request ws = (Returned response, ws') ->
  status response ∈ [200; 400; 404; 500; 502]%Z /\
  (status response = 404%Z <->
   ~ is_health request /\ ~ is_ui request /\ ~ is_api_chat request) /\
  (forall error raw, body response <> JsonErrorRaw error raw).
Proof.
  intros Hf. pose proof (deployed_fetch_summary platform AI request ws) as Hsum.
  cbv zeta in Hsum. rewrite Hf in Hsum. cbn [fst snd] in Hsum. tauto.
Qed.

Lemma deployed_worker_statuses_witness :
  let request := {| Worker.method := js "PUT";
                    Worker.protocol := js "https:";
                    Worker.pathname := js "/api/chat";
                    Worker.cookie_header := Some (js "session=%");
                    Worker.json := None |} in
  exists response,
    Worker.fetch example_platform (Worker.deployed None) request no_rooms
    = (Returned response, no_rooms) /\
    status response = 404%Z /\
    ~ is_health request /\ ~ is_ui request /\ ~ is_api_chat request.
Proof.
  intros request. eexists. split; [vm_compute; reflexivity|]. split; [reflexivity|].
  eapply (deployed_worker_statuses example_platform None request no_rooms);
    [vm_compute; reflexivity|reflexivity].
Defined.

(** X18. With ChatRooms behind the namespace, one request makes at most one
    stub call and changes at most one room, the one of its own session;
    every other room is as it was. *)
Theorem deployed_worker_touches_one_room platform AI request ws :
  let ws' := (Worker.fetch platform (Worker.deployed AI) request ws).2 in
  (length (Worker.dispatched ws') <= S (length (Worker.dispatched ws)))%nat /\
  forall name,
    Worker.objects ws' !! name = Worker.objects ws !! name \/
    exists cookie,
      Worker.getCookie request (js "session") = Returned cookie /\
      name = session_of platform cookie.
Proof.
  cbv zeta. pose proof (deployed_fetch_summary platform AI request ws) as Hsum.
  cbv zeta in Hsum.
  destruct (Worker.fetch platform (Worker.deployed AI) request ws) as [[response|e] ws'].
  2: { cbn [fst snd] in *. destruct Hsum as (-> & _). split; [lia|]. by left. }
  cbn [fst snd] in *.
  destruct Hsum as (_ & _ & _ & [->|(_ & cookie & sent & m & Hc & _ & _ & _ & ->)]).
  { split; [lia|]. by left. }
  unfold after_dispatch. cbn [Worker.dispatched Worker.objects].
  split; [rewrite length_app; cbn; lia|].
  intros name. destruct (decide (name = session_of platform cookie)) as [->|Hne].
  - right. by exists cookie.
  - left. by rewrite lookup_insert_ne.
Qed.

(** X19. Two [POST /api/chat] requests that carry the same session cookie
    are served by the same ChatRoom one after the other: after both, the room
    of the session is the one that served the two trimmed messages in order,
    and the rooms of other sessions are untouched. *)
Theorem session_remembers_across_requests platform1 platform2 AI
    request1 request2 ws sid sent1 sent2 m1 m2 :
  is_api_chat request1 -> is_api_chat request2 ->
  sid <> [] ->
  Worker.getCookie request1 (js "session") = Returned (Some sid) ->
  Worker.getCookie request2 (js "session") = Returned (Some sid) ->
  Worker.json request1 = Some sent1 ->
  trimmed_field sent1 (js "message") = Returned m1 -> m1 <> [] ->
  Worker.json request2 = Some sent2 ->
  trimmed_field sent2 (js "message") = Returned m2 -> m2 <> [] ->
  let room := default ChatRoom.fresh (Worker.objects ws !! sid) in
  let ws1 := (Worker.fetch platform1 (Worker.deployed AI) request1 ws).2 in
  let ws2 := (Worker.fetch platform2 (Worker.deployed AI) request2 ws1).2 in
  Worker.objects ws2 !! sid
  = Some (serve [(AI, post (message_body m1)); (AI, post (message_body m2))] room) /\
  (forall other, other <> sid ->
     Worker.objects ws2 !! other = Worker.objects ws !! other).
Proof.
  intros [Hm1 Hp1] [Hm2 Hp2] Hsid Hc1 Hc2 Hj1 Ht1 Hne1 Hj2 Ht2 Hne2. cbv zeta.
  rewrite !fetch_api_chat by done.
  destruct (deployed_dispatch platform1 AI request1 ws (Some sid) None sent1 m1
              Hc1 (minted_existing _ _ _ Hsid) Hj1 Ht1 Hne1) as (r1 & -> & _).
  rewrite (session_of_existing platform1 sid Hsid). cbn [snd].
  set (ws1 := after_dispatch ws sid _ _).
  destruct (deployed_dispatch platform2 AI request2 ws1 (Some sid) None sent2 m2
              Hc2 (minted_existing _ _ _ Hsid) Hj2 Ht2 Hne2) as (r2 & -> & _).
  rewrite (session_of_existing platform2 sid Hsid). cbn [snd].
  unfold ws1, after_dispatch. cbn [Worker.objects serve].
  rewrite !lookup_insert_eq. cbn [default]. split; [done|].
  intros other Hother. by rewrite !lookup_insert_ne.
Qed.

Lemma session_remembers_across_requests_witness :
  let request1 := api_chat_with_cookie (js "session=abc") (message_body (js "one")) in
  let request2 := api_chat_with_cookie (js "lang=en; session=abc") (message_body (js "two")) in
  let ws1 := (Worker.fetch example_platform (Worker.deployed None) request1 no_rooms).2 in
  let ws2 := (Worker.fetch example_platform (Worker.deployed None) request2 ws1).2 in
  Worker.objects ws2 !! js "abc"
  = Some (serve [(None, post (message_body (js "one")));
                 (None, post (message_body (js "two")))] ChatRoom.fresh) /\
  stored_history (serve [(None, post (message_body (js "one")));
                         (None, post (message_body (js "two")))] ChatRoom.fresh)
  = [user_says (js "one"); assistant_says (DEV_PREFIX ++ js "one");
     user_says (js "two"); assistant_says (DEV_PREFIX ++ js "two")].
Proof.
  intros request1 request2 ws1 ws2. split; [|reflexivity].
  exact (proj1 (session_remembers_across_requests example_platform example_platform
                  None request1 request2 no_rooms (js "abc")
                  (message_body (js "one")) (message_body (js "two"))
                  (js "one") (js "two")
                  (conj eq_refl eq_refl) (conj eq_refl eq_refl)
                  ltac:(vm_compute; discriminate) eq_refl eq_refl
                  eq_refl eq_refl ltac:(vm_compute; discriminate)
                  eq_refl eq_refl ltac:(vm_compute; discriminate))).
Defined.
